(** * pypint, [pint/model.py]: initial states and the model loader

    A shallow embedding of [pint/model.py]: the [InitialState] dictionary
    (defaults, per-automaton domains, overrides, the query string built by
    [to_pint]), the [Model] / [FileModel] / [InMemoryModel] classes and the
    module-level [load] with its format dispatch.

    Conventions.
    - A Python [str] is a [string] whose characters are code points below
      256; [str(int)], [repr(str)], [str.lower], [str.join], [str.split]
      and [os.path.basename] (POSIX) are written out for that range.
    - A Python [dict] is an association list in insertion order: [items()]
      follows that order, a write to an existing key keeps its place, a
      write to a new key goes to the end.
    - A method that mutates [self] is a function from the object before the
      call to an outcome and the object after it; an exception leaves the
      mutations made before it in place, as in Python.
    - Collaborators outside the module (the pint and logicalmodel
      processes, the file system, the network, the notebook display) are
      section variables acting on an abstract world. *)

From Stdlib Require Import ZArith String Ascii List Bool Lia DecimalString.
Import ListNotations.
Open Scope string_scope.
Open Scope Z_scope.

(* ================================================================== *)
(** ** Outcomes and exceptions *)
(* ================================================================== *)

(** The exceptions the module can end with.  [External] stands for what a
    collaborator raises (subprocess.CalledProcessError, OSError,
    urllib.error.URLError, json.JSONDecodeError, ...), whatever its
    Python class: the [ValueError] of [urlparse] or of [json.loads] is an
    [External], and [ValueError] below is the one [load] raises itself. *)
Inductive exn : Type :=
| KeyError (key : string)
| TypeError (msg : string)
| ValueError (msg : string)
| AssertionError (msg : option string)
| AttributeError (msg : string)
| External (what : string).

Inductive result (A : Type) : Type :=
| Ok (a : A)
| Raise (e : exn).
Arguments Ok {A} a.
Arguments Raise {A} e.

(** State and exception monad: [M S A] is a computation over a mutable
    object of type [S]. *)
Definition M (S A : Type) : Type := S -> result A * S.

Definition ret {S A} (a : A) : M S A := fun s => (Ok a, s).
Definition raise {S A} (e : exn) : M S A := fun s => (Raise e, s).
Definition bind {S A B} (c : M S A) (k : A -> M S B) : M S B :=
  fun s => match c s with
           | (Ok a, s') => k a s'
           | (Raise e, s') => (Raise e, s')
           end.
Definition get {S} : M S S := fun s => (Ok s, s).
Definition put {S} (s : S) : M S unit := fun _ => (Ok tt, s).
Definition lift {S A} (r : result A) : M S A := fun s => (r, s).

Declare Scope py_scope.
Delimit Scope py_scope with py.
Notation "x <- c ;; k" := (bind c (fun x => k))
  (at level 61, c at next level, right associativity) : py_scope.
Notation "c ;;; k" := (bind c (fun _ => k))
  (at level 61, right associativity) : py_scope.

(* ================================================================== *)
(** ** Python strings *)
(* ================================================================== *)

Module PyStr.

(** The double quote character and the one-character string made of it. *)
Definition dq_char : ascii := ascii_of_nat 34.
Definition dq : string := String dq_char EmptyString.
Definition sq_char : ascii := "'"%char.
Definition bs_char : ascii := ascii_of_nat 92.

(** [str(i)] for an [int]. *)
Definition str_of_int (z : Z) : string := NilZero.string_of_int (Z.to_int z).

(** [sep.join(l)]. *)
Definition join (sep : string) (l : list string) : string := String.concat sep l.

(** [c in s] for a one-character [c]. *)
Fixpoint contains (c : ascii) (s : string) : bool :=
  match s with
  | EmptyString => false
  | String x r => Ascii.eqb x c || contains c r
  end.

(** [s.split(c)[-1]]: what follows the last [c], all of [s] without one. *)
Fixpoint last_field (c : ascii) (s : string) : string :=
  match s with
  | EmptyString => EmptyString
  | String x r =>
      if contains c r then last_field c r
      else if Ascii.eqb x c then r
      else s
  end.

(** [posixpath.basename(p)]: [p[p.rfind('/')+1:]]. *)
Definition basename (p : string) : string := last_field "/"%char p.

(** [str.lower] on one code point below 256: A-Z, and U+00C0..U+00DE
    apart from the multiplication sign U+00D7, move up by 32. *)
Definition lower_char (c : ascii) : ascii :=
  let n := nat_of_ascii c in
  if ((65 <=? n) && (n <=? 90))%nat then ascii_of_nat (n + 32)
  else if ((192 <=? n) && (n <=? 222) && negb (n =? 215))%nat
       then ascii_of_nat (n + 32)
  else c.

Fixpoint lower (s : string) : string :=
  match s with
  | EmptyString => EmptyString
  | String c r => String (lower_char c) (lower r)
  end.

(** [s[:-n]] for [n >= 1]: [s] without its last [n] characters. *)
Definition drop_last (n : nat) (s : string) : string :=
  substring 0 (String.length s - n) s.

(** [list(s)] as one-character strings (what iterating a [str] yields). *)
Fixpoint chars (s : string) : list string :=
  match s with
  | EmptyString => []
  | String c r => String c EmptyString :: chars r
  end.

(** *** [repr] of a [str] *)

Definition hex_digit (n : nat) : ascii :=
  nth n (list_ascii_of_string "0123456789abcdef") "0"%char.

Definition hex_escape (n : nat) : string :=
  String bs_char
    (String "x"%char
       (String (hex_digit (n / 16)) (String (hex_digit (n mod 16)) EmptyString))).

(** [str.isprintable] on one code point below 256. *)
Definition printable (n : nat) : bool :=
  ((32 <=? n) && (n <? 127) || (161 <=? n) && negb (n =? 173))%nat.

Definition repr_char (quote c : ascii) : string :=
  let n := nat_of_ascii c in
  if Ascii.eqb c quote || Ascii.eqb c bs_char
  then String bs_char (String c EmptyString)
  else if (n =? 9)%nat then String bs_char "t"
  else if (n =? 10)%nat then String bs_char "n"
  else if (n =? 13)%nat then String bs_char "r"
  else if printable n then String c EmptyString
  else hex_escape n.

Fixpoint repr_body (quote : ascii) (s : string) : string :=
  match s with
  | EmptyString => EmptyString
  | String c r => repr_char quote c ++ repr_body quote r
  end.

(** [repr(s)]: single quotes, unless [s] holds a single quote and no
    double quote. *)
Definition repr (s : string) : string :=
  let quote := if contains sq_char s && negb (contains dq_char s)
               then dq_char else sq_char in
  String quote (repr_body quote s ++ String quote EmptyString).

(** [str(l)] for a [list] of [str]. *)
Definition str_of_list (l : list string) : string :=
  "[" ++ join ", " (map repr l) ++ "]".

End PyStr.

(* ================================================================== *)
(** ** Python dictionaries *)
(* ================================================================== *)

Module Dict.

Definition dict (V : Type) : Type := list (string * V).

Section Ops.
Context {V : Type}.

Fixpoint get (d : dict V) (k : string) : option V :=
  match d with
  | [] => None
  | (k', v) :: r => if String.eqb k' k then Some v else get r k
  end.

Definition mem (d : dict V) (k : string) : bool :=
  match get d k with Some _ => true | None => false end.

(** [d[k]]: [KeyError] on an absent key. *)
Definition item (d : dict V) (k : string) : result V :=
  match get d k with Some v => Ok v | None => Raise (KeyError k) end.

(** [d[k] = v]. *)
Fixpoint set (d : dict V) (k : string) (v : V) : dict V :=
  match d with
  | [] => [(k, v)]
  | (k', v') :: r =>
      if String.eqb k' k then (k', v) :: r else (k', v') :: set r k v
  end.

Definition remove (d : dict V) (k : string) : dict V :=
  filter (fun kv => negb (String.eqb (fst kv) k)) d.

(** [del d[k]]: [KeyError] on an absent key. *)
Definition del (d : dict V) (k : string) : result (dict V) :=
  if mem d k then Ok (remove d k) else Raise (KeyError k).

(** [d.update(e)]. *)
Definition update (d e : dict V) : dict V :=
  fold_left (fun acc kv => set acc (fst kv) (snd kv)) e d.

Definition keys (d : dict V) : list string := map fst d.
End Ops.

End Dict.
Definition dict (V : Type) : Type := Dict.dict V.

(* ================================================================== *)
(** ** Values and model metadata *)
(* ================================================================== *)

(** A local state: an integer or a name. *)
Inductive scalar : Type :=
| SInt (z : Z)
| SStr (s : string).

(** The Python values the module handles as initial values: an [int], a
    [str], a [list], [set] or [tuple] of local states (a [set] is given by
    its iteration order), and [None] for a value of no accepted type. *)
Inductive value : Type :=
| VInt (z : Z)
| VStr (s : string)
| VList (l : list scalar)
| VSet (l : list scalar)
| VTuple (l : list scalar)
| VNone.

Definition scalar_eqb (x y : scalar) : bool :=
  match x, y with
  | SInt a, SInt b => Z.eqb a b
  | SStr a, SStr b => String.eqb a b
  | _, _ => false
  end.

Fixpoint scalars_eqb (l m : list scalar) : bool :=
  match l, m with
  | [], [] => true
  | x :: l', y :: m' => scalar_eqb x y && scalars_eqb l' m'
  | _, _ => false
  end.

(** [x in s] for a set or list of local states. *)
Definition member (x : scalar) (s : list scalar) : bool :=
  existsb (scalar_eqb x) s.

(** [s.issuperset(t)]. *)
Definition issuperset (s t : list scalar) : bool :=
  forallb (fun x => member x s) t.

(** [set(l)]: the elements of [l] once each, by first occurrence. *)
Fixpoint py_set (l : list scalar) : list scalar :=
  match l with
  | [] => []
  | x :: r => x :: filter (fun y => negb (scalar_eqb x y)) (py_set r)
  end.

(** [v == w]. *)
Definition py_eq (v w : value) : bool :=
  match v, w with
  | VInt a, VInt b => Z.eqb a b
  | VStr a, VStr b => String.eqb a b
  | VList l, VList m => scalars_eqb l m
  | VTuple l, VTuple m => scalars_eqb l m
  | VSet l, VSet m => issuperset l m && issuperset m l
  | VNone, VNone => true
  | _, _ => false
  end.

(** [str(x)] for a local state. *)
Definition str_of_scalar (x : scalar) : string :=
  match x with
  | SInt z => PyStr.str_of_int z
  | SStr s => s
  end.

(** The metadata document printed by [pint-export -l nbjson]. *)
Module Info.
Record t : Type := mk {
  automata : list string;
  local_states : dict (list scalar);
  named_local_states : dict (list scalar);
  features : list string;
  initial_state : dict value
}.
End Info.

(** [for x in l: body(x)]. *)
Fixpoint for_each {S A : Type} (l : list A) (body : A -> M S unit) : M S unit :=
  match l with
  | [] => ret tt
  | x :: r => (body x ;;; for_each r body)%py
  end.

(* ================================================================== *)
(** ** class InitialState(dict) *)
(* ================================================================== *)

Module InitialState.

(** The object: [defaults], [domain], the private [__override], and
    [base], the storage of the [dict] it inherits from. *)
Record t : Type := mk {
  defaults : dict value;
  domain : dict (list scalar);
  override : dict value;
  base : dict value
}.

Definition with_override (st : t) (o : dict value) : t :=
  mk (defaults st) (domain st) o (base st).
Definition with_base (st : t) (b : dict value) : t :=
  mk (defaults st) (domain st) (override st) b.

(** One round of the loop of [__init__], on the pair of [self.domain] and
    the dictionary [self.defaults] refers to. *)
Definition init_step (i : Info.t) (a : string)
  : M (dict (list scalar) * dict value) unit :=
  (ls <- (fun s => (Dict.item (Info.local_states i) a, s)) ;;
   nls <- (fun s => (Dict.item (Info.named_local_states i) a, s)) ;;
   s <- get ;;
   put (Dict.set (fst s) a (py_set (ls ++ nls)), snd s) ;;;
   s <- get ;;
   d <- lift (Dict.item (snd s) a) ;;
   match d with
   | VList l => put (fst s, Dict.set (snd s) a (VTuple l))
   | _ => ret tt
   end)%py.

(** [InitialState(info, defaults)].  [self.defaults] is the caller's
    dictionary itself ([info.initial_state] when [defaults] is [None]),
    and the loop rewrites its list entries into tuples in place: the
    second component is that dictionary after the call, whether the
    constructor returns or raises. *)
Definition __init__ (i : Info.t) (dflt : option (dict value))
  : result t * dict value :=
  let d0 := match dflt with None => Info.initial_state i | Some d => d end in
  match for_each (Info.automata i) (init_step i) ([], d0) with
  | (Ok _, (dom, d)) => (Ok (mk d dom [] d0), d)
  | (Raise e, (_, d)) => (Raise e, d)
  end.

Definition is_custom (st : t) : bool := (0 <? length (override st))%nat.

Definition __delitem__ (key : string) : M t unit :=
  (st <- get ;;
   o <- lift (Dict.del (override st) key) ;;
   put (with_override st o) ;;;
   st <- get ;;
   d <- lift (Dict.item (defaults st) key) ;;
   put (with_base st (Dict.set (base st) key d)))%py.

(** [self[key]]: [self.defaults[key]] is evaluated before the lookup in
    the overrides. *)
Definition __getitem__ (st : t) (key : string) : result value :=
  match Dict.item (defaults st) key with
  | Raise e => Raise e
  | Ok d => Ok (match Dict.get (override st) key with
               | Some v => v
               | None => d
               end)
  end.

(** [type(value) in [int, str, list, set, tuple]]. *)
Definition accepted_type (v : value) : bool :=
  match v with VNone => false | _ => true end.

(** [type(value) in [int, str]]. *)
Definition is_scalar (v : value) : bool :=
  match v with VInt _ | VStr _ => true | _ => false end.

(** [value in s] for a value of type [int] or [str]. *)
Definition value_in (v : value) (s : list scalar) : bool :=
  match v with
  | VInt z => member (SInt z) s
  | VStr x => member (SStr x) s
  | _ => false
  end.

(** [set(value)]: iterating a [str] yields its characters, an [int] is not
    iterable. *)
Definition set_of (v : value) : result (list scalar) :=
  match v with
  | VInt _ => Raise (TypeError "'int' object is not iterable")
  | VStr s => Ok (py_set (map SStr (PyStr.chars s)))
  | VList l | VSet l | VTuple l => Ok (py_set l)
  | VNone => Raise (TypeError "'NoneType' object is not iterable")
  end.

(** [tuple(value)] for a value that is no [int] and no [str]. *)
Definition normalise (v : value) : value :=
  match v with
  | VList l | VSet l | VTuple l => VTuple l
  | _ => v
  end.

(** The condition of line 47:
    [type(value) in [int, str] and value in self.domain[key]
       or self.domain[key].issuperset(set(value))]. *)
Definition accepts (st : t) (key : string) (v : value) : result bool :=
  let left :=
    if is_scalar v then
      match Dict.item (domain st) key with
      | Raise e => Raise e
      | Ok dom => Ok (value_in v dom)
      end
    else Ok false in
  match left with
  | Raise e => Raise e
  | Ok true => Ok true
  | Ok false =>
      match Dict.item (domain st) key with
      | Raise e => Raise e
      | Ok dom =>
          match set_of v with
          | Raise e => Raise e
          | Ok els => Ok (issuperset dom els)
          end
      end
  end.

Definition invalid_value_msg (key : string) (dom : list scalar) : string :=
  "Invalid value for '" ++ key ++ "' (allowed: "
    ++ PyStr.join ", " (map str_of_scalar dom) ++ ")".

Definition __setitem__ (key : string) (v : value) : M t unit :=
  (if negb (accepted_type v) then raise (TypeError "Invalid type value")
   else
     st <- get ;;
     if negb (Dict.mem (defaults st) key)
     then raise (TypeError ("Unknown automaton '" ++ key ++ "'"))
     else
       ok <- lift (accepts st key v) ;;
       if ok : bool then
         let v := if negb (is_scalar v) then normalise v else v in
         d <- lift (Dict.item (defaults st) key) ;;
         if py_eq v d then
           o <- lift (Dict.del (override st) key) ;;
           put (with_override st o)
         else
           put (mk (defaults st) (domain st)
                   (Dict.set (override st) key v)
                   (Dict.set (base st) key v))
       else
         dom <- lift (Dict.item (domain st) key) ;;
         raise (TypeError (invalid_value_msg key dom)))%py.

(** Restore to default initial state. *)
Definition reset : M t unit :=
  (st <- get ;;
   put (with_override st []) ;;;
   st <- get ;;
   put (with_base st (Dict.update (base st) (defaults st))))%py.

(** What [fmt_values] returns holds strings (for an [int] or a [str]) or,
    for a compound value, the lists returned for its elements. *)
Inductive fmt : Type :=
| FStr (s : string)
| FList (l : list string).

(** [fmt_values] on an element of a compound value. *)
Definition fmt_scalar (j : scalar) : list string :=
  match j with
  | SInt z => [PyStr.str_of_int z]
  | SStr s => [PyStr.dq ++ s ++ PyStr.dq]
  end.

Definition fmt_values (i : value) : result (list fmt) :=
  match i with
  | VInt z => Ok (map FStr (fmt_scalar (SInt z)))
  | VStr s => Ok (map FStr (fmt_scalar (SStr s)))
  | VList l | VSet l | VTuple l => Ok (map (fun j => FList (fmt_scalar j)) l)
  | VNone => Raise (TypeError "'NoneType' object is not iterable")
  end.

(** The [%s] conversion of one item of [fmt_values]. *)
Definition str_of_fmt (f : fmt) : string :=
  match f with
  | FStr s => s
  | FList l => PyStr.str_of_list l
  end.

Definition pint_of_keyvalue (a : string) (i : value) : result (list string) :=
  match fmt_values i with
  | Raise e => Raise e
  | Ok fs => Ok (map (fun f => PyStr.dq ++ a ++ PyStr.dq ++ "=" ++ str_of_fmt f) fs)
  end.

(** The loop of [to_pint] over [self.__override.items()]. *)
Fixpoint to_pint_terms (items : dict value) (lss : list string)
  : result (list string) :=
  match items with
  | [] => Ok lss
  | (a, i) :: r =>
      match pint_of_keyvalue a i with
      | Raise e => Raise e
      | Ok ts => to_pint_terms r (lss ++ ts)
      end
  end.

Definition to_pint (st : t) : result string :=
  match to_pint_terms (override st) [] with
  | Raise e => Raise e
  | Ok lss => Ok (PyStr.join "," lss)
  end.

End InitialState.

(* ================================================================== *)
(** ** Classes Model, FileModel and InMemoryModel *)
(* ================================================================== *)

(** What a collaborator returns: a value, or the name of what it raised. *)
Inductive outcome (A : Type) : Type :=
| Done (a : A)
| Failed (what : string).
Arguments Done {A} a.
Arguments Failed {A} what.

Definition of_outcome {A} (o : outcome A) : result A :=
  match o with
  | Done a => Ok a
  | Failed what => Raise (External what)
  end.

Inductive klass : Type :=
| Model_class
| FileModel_class
| InMemoryModel_class.

Definition klass_eqb (c d : klass) : bool :=
  match c, d with
  | Model_class, Model_class
  | FileModel_class, FileModel_class
  | InMemoryModel_class, InMemoryModel_class => true
  | _, _ => false
  end.

(** The method resolution order of a class, [object] left out. *)
Definition mro (c : klass) : list klass :=
  match c with
  | Model_class => [Model_class]
  | FileModel_class => [FileModel_class; Model_class]
  | InMemoryModel_class => [InMemoryModel_class; Model_class]
  end.

Fixpoint mro_after (c : klass) (l : list klass) : option (list klass) :=
  match l with
  | [] => None
  | d :: r => if klass_eqb d c then Some r else mro_after c r
  end.

(** [super(c, self)] for an instance of [self_class]: the classes that
    follow [c] in the order of [self_class]; a [TypeError] when
    [self_class] is no subclass of [c]. *)
Definition super (c self_class : klass) : result (list klass) :=
  match mro_after c (mro self_class) with
  | Some r => Ok r
  | None =>
      Raise (TypeError "super(type, obj): obj must be an instance or subtype of type")
  end.

Module Model.

(** An instance.  An attribute that has not been assigned yet is [None];
    [initial_state] assigned Python's [None] is [Some None].  The class
    decorator [EquipTools] (module [.tools]) is taken to add methods and
    leave the ones below as they are. *)
Record t : Type := mk {
  cls : klass;
  named_states : dict InitialState.t;
  info : option Info.t;
  initial_state : option (option InitialState.t);
  filename : option string;
  data : option string
}.

Definition attr {A} (name : string) (a : option A) : result A :=
  match a with
  | Some x => Ok x
  | None => Raise (AttributeError ("object has no attribute '" ++ name ++ "'"))
  end.

(** [Model.__init__]: a new instance of class [c]. *)
Definition __init__ (c : klass) : t := mk c [] None None None None.

(** The instance after [InitialState(self.info, defaults)] has rewritten
    [self.info["initial_state"]] in place. *)
Definition with_info (self : t) (i : Info.t) : t :=
  mk (cls self) (named_states self) (Some i) (initial_state self)
     (filename self) (data self).
Definition with_initial_state (self : t) (s : option InitialState.t) : t :=
  mk (cls self) (named_states self) (info self) (Some s)
     (filename self) (data self).
Definition with_named_states (self : t) (n : dict InitialState.t) : t :=
  mk (cls self) n (info self) (initial_state self) (filename self) (data self).

Definition set_initial_state (i : Info.t) (d : dict value) : Info.t :=
  Info.mk (Info.automata i) (Info.local_states i) (Info.named_local_states i)
          (Info.features i) d.

(** The arguments of the process call: [args] and [kwargs]. *)
Definition popen_args : Type := (list string * dict string)%type.

(** [Model.populate_popen_args]. *)
Definition Model_populate_popen_args (self : t) (a : popen_args)
  : result popen_args :=
  match attr "initial_state" (initial_state self) with
  | Raise e => Raise e
  | Ok None => Ok a
  | Ok (Some st) =>
      if InitialState.is_custom st then
        match InitialState.to_pint st with
        | Raise e => Raise e
        | Ok s => Ok ((fst a ++ ["--initial-context"; s])%list, snd a)
        end
      else Ok a
  end.

(** [super(c, self).populate_popen_args(args, kwargs)]: the method of the
    first class after [c]; [object] has none. *)
Definition super_populate_popen_args (c : klass) (self : t) (a : popen_args)
  : result popen_args :=
  match super c (cls self) with
  | Raise e => Raise e
  | Ok (Model_class :: _) => Model_populate_popen_args self a
  | Ok _ =>
      Raise (AttributeError "'super' object has no attribute 'populate_popen_args'")
  end.

(** [FileModel.populate_popen_args]. *)
Definition FileModel_populate_popen_args (self : t) (a : popen_args)
  : result popen_args :=
  match attr "filename" (filename self) with
  | Raise e => Raise e
  | Ok f =>
      super_populate_popen_args FileModel_class self
        ((fst a ++ ["-i"; f])%list, snd a)
  end.

(** [InMemoryModel.populate_popen_args]. *)
Definition InMemoryModel_populate_popen_args (self : t) (a : popen_args)
  : result popen_args :=
  match attr "data" (data self) with
  | Raise e => Raise e
  | Ok d =>
      super_populate_popen_args FileModel_class self
        (fst a, Dict.set (snd a) "input" d)
  end.

(** [self.populate_popen_args(args, kwargs)], by the class of [self]. *)
Definition populate_popen_args (self : t) (a : popen_args) : result popen_args :=
  match cls self with
  | Model_class => Model_populate_popen_args self a
  | FileModel_class => FileModel_populate_popen_args self a
  | InMemoryModel_class => InMemoryModel_populate_popen_args self a
  end.

(** [Model.register_state(name, state)], on the instance and the
    dictionary [state] of the caller. *)
Definition register_state (name : string) : M (t * dict value) unit :=
  (s <- get ;;
   i <- lift (attr "info" (info (fst s))) ;;
   let (r, d) := InitialState.__init__ i (Some (snd s)) in
   put (fst s, d) ;;;
   st <- lift r ;;
   put (with_named_states (fst s) (Dict.set (named_states (fst s)) name st), d))%py.

Definition automata (self : t) : result (list string) :=
  match attr "info" (info self) with
  | Raise e => Raise e
  | Ok i => Ok (Info.automata i)
  end.
Definition local_states (self : t) : result (dict (list scalar)) :=
  match attr "info" (info self) with
  | Raise e => Raise e
  | Ok i => Ok (Info.local_states i)
  end.
Definition named_local_states (self : t) : result (dict (list scalar)) :=
  match attr "info" (info self) with
  | Raise e => Raise e
  | Ok i => Ok (Info.named_local_states i)
  end.
Definition features (self : t) : result (list string) :=
  match attr "info" (info self) with
  | Raise e => Raise e
  | Ok i => Ok (Info.features i)
  end.

End Model.

(* ================================================================== *)
(** ** Loading: the collaborators, Model.load and the module's load *)
(* ================================================================== *)

Section Loader.

(** The world outside the process: files, network, notebook. *)
Variable W : Type.

(** [subprocess.check_output(args, **kwargs)]. *)
Variable check_output : list string -> dict string -> W -> outcome string * W.
(** [json.loads(bytes.decode())], read as a metadata document. *)
Variable json_loads : string -> outcome Info.t.
(** [subprocess.check_call(args)]. *)
Variable check_call : list string -> W -> outcome unit * W.
(** [os.path.exists(path)]. *)
Variable path_exists : string -> W -> bool.
(** [urlparse(s)]: the [netloc] of the result and its [geturl()]. *)
Variable urlparse : string -> outcome (string * string).
(** [urlretrieve(url, filename=f)]: the file name it returns. *)
Variable urlretrieve : string -> string -> W -> outcome string * W.
(** [new_output_file(suffix=s)] of module [.tools]. *)
Variable new_output_file : string -> W -> outcome string * W.
(** [info(msg)] of module [.ui] and [display(FileLink(path))]. *)
Variable ui_info : string -> W -> W.
Variable display_FileLink : string -> W -> W.

Definition call {A} (f : W -> outcome A * W) : M W A :=
  fun w => let (o, w') := f w in (of_outcome o, w').
Definition tell (f : W -> W) : M W unit := fun w => (Ok tt, f w).

(** [Model.load], on the instance and the world. *)
Definition Model_load : M (Model.t * W) unit :=
  (let args := ["pint-export"; "-l"; "nbjson"] in
   let kwargs : dict string := [] in
   s <- get ;;
   put (Model.with_initial_state (fst s) None, snd s) ;;;
   s <- get ;;
   a <- lift (Model.populate_popen_args (fst s) (args, kwargs)) ;;
   out <- (fun s => let (o, w') := check_output (fst a) (snd a) (snd s) in
                    (of_outcome o, (fst s, w'))) ;;
   i <- lift (of_outcome (json_loads out)) ;;
   s <- get ;;
   put (Model.with_info (fst s) i, snd s) ;;;
   let (r, d) := InitialState.__init__ i None in
   s <- get ;;
   put (Model.with_info (fst s) (Model.set_initial_state i d), snd s) ;;;
   st <- lift r ;;
   s <- get ;;
   put (Model.with_initial_state (fst s) (Some st), snd s))%py.

(** [c(...)] for a model class: [__init__] sets the attributes and calls
    [self.load()]; the instance exists only if that returns. *)
Definition construct (self : Model.t) : M W Model.t :=
  fun w => match Model_load (self, w) with
           | (Ok _, (self', w')) => (Ok self', w')
           | (Raise e, (_, w')) => (Raise e, w')
           end.

Definition FileModel (filename : string) : M W Model.t :=
  let self := Model.__init__ FileModel_class in
  construct (Model.mk (Model.cls self) (Model.named_states self) (Model.info self)
                      (Model.initial_state self) (Some filename) (Model.data self)).

Definition InMemoryModel (data : string) : M W Model.t :=
  let self := Model.__init__ InMemoryModel_class in
  construct (Model.mk (Model.cls self) (Model.named_states self) (Model.info self)
                      (Model.initial_state self) (Model.filename self) (Some data)).

(** [for name, state in states.items(): model.register_state(name, state)]. *)
Fixpoint register_states (states : dict (dict value)) (model : Model.t)
  : result Model.t :=
  match states with
  | [] => Ok model
  | (name, state) :: r =>
      match Model.register_state name (model, state) with
      | (Ok _, (model', _)) => register_states r model'
      | (Raise e, _) => Raise e
      end
  end.

Definition import_using_logicalmodel (fmt inputfile anfile : string)
  (simplify : bool) : M W Model.t :=
  (let states : dict (dict value) := [] in
   call (check_call ["logicalmodel"; fmt ++ ":an"; inputfile; anfile]) ;;;
   (if simplify then
      tell (ui_info "Simplifying model...") ;;;
      call (check_call ["pint-export"; "--simplify"; "-i"; anfile; "-o"; anfile])
    else ret tt) ;;;
   tell (display_FileLink anfile) ;;;
   model <- FileModel anfile ;;
   lift (register_states states model))%py.

(** [file_ext]: Python's [None] when the base name holds no dot. *)
Definition file_ext (filename : string) : option string :=
  let filename := PyStr.basename filename in
  if PyStr.contains "."%char filename
  then Some (PyStr.lower (PyStr.last_field "."%char filename))
  else None.

Definition ext2format : dict string :=
  [("an", "an");
   ("bn", "boolfunctions");
   ("booleannet", "booleannet");
   ("boolfunctions", "boolfunctions");
   ("boolsim", "boolsim");
   ("sbml", "sbml")].

Definition str_in (s : string) (l : list string) : bool :=
  existsb (String.eqb s) l.

(** Lines 202-204 of [load]: the format, declared or looked up by the
    extension. *)
Definition load_format (ext format : option string) : result string :=
  match format with
  | Some f => Ok f
  | None =>
      match ext with
      | Some e =>
          match Dict.get ext2format e with
          | Some f => Ok f
          | None => Raise (AssertionError (Some ("Unknown extension '" ++ e ++ "'")))
          end
      | None => Raise (AssertionError (Some "Unknown extension 'None'"))
      end
  end.

(** Lines 206-213 of [load]: the local file to read, downloaded when the
    name has a network location. *)
Definition load_fetch (filename bname : string) : M W string :=
  (uri <- lift (of_outcome (urlparse filename)) ;;
   if negb (String.eqb (fst uri) EmptyString) then
     filename <- call (new_output_file bname) ;;
     let url := snd uri in
     tell (ui_info ("Downloading '" ++ url ++ "' to '" ++ filename ++ "'")) ;;;
     call (urlretrieve url filename)
   else
     w <- get ;;
     if path_exists filename w then ret filename
     else raise (AssertionError None))%py.

(** Lines 215-227 of [load]: the dispatch on the format. *)
Definition load_dispatch (format filename name : string) (simplify : bool)
  : M W Model.t :=
  (if String.eqb format "an" then
     tell (ui_info "Source file is in Automata Network (an) format") ;;;
     FileModel filename
   else if str_in format ["boolfunctions"; "boolsim"; "booleannet"; "sbml"] then
     tell (ui_info ("Source file is in " ++ format
                      ++ " format, importing with logicalmodel")) ;;;
     anfile <- call (new_output_file (name ++ ".an")) ;;
     import_using_logicalmodel format filename anfile simplify
   else raise (ValueError ("Format '" ++ format ++ "' is not supported.")))%py.

(** [load(filename, format, simplify)]; [format] is [None] when no format
    is declared.  [len(ext)] raises when [file_ext] returned [None]. *)
Definition load (filename : string) (format : option string) (simplify : bool)
  : M W Model.t :=
  (let bname := PyStr.basename filename in
   let ext := file_ext filename in
   name <- match ext with
           | Some e => ret (PyStr.drop_last (String.length e + 1) bname)
           | None => raise (TypeError "object of type 'NoneType' has no len()")
           end ;;
   format <- lift (load_format ext format) ;;
   filename <- load_fetch filename bname ;;
   load_dispatch format filename name simplify)%py.

(** The two exceptions of [load] that refuse a format: the failed
    assertion on the extension and the [ValueError] of the last branch. *)
Definition is_unsupported_format (e : exn) : Prop :=
  (exists x, e = AssertionError (Some ("Unknown extension '" ++ x ++ "'")))
  \/ (exists f, e = ValueError ("Format '" ++ f ++ "' is not supported.")).

(** The formats [load] dispatches on. *)
Definition supported (f : string) : bool :=
  String.eqb f "an" || str_in f ["boolfunctions"; "boolsim"; "booleannet"; "sbml"].

(** Lines 206-213 return: the download succeeded, or the local file
    exists. *)
Definition fetched (filename : string) (w : W) : Prop :=
  exists f w', load_fetch filename (PyStr.basename filename) w = (Ok f, w').

End Loader.

(* ================================================================== *)
(** ** Well-formed initial states, replay, and a small model *)
(* ================================================================== *)

Module Invariant.
Import InitialState.

(** The shapes [__setitem__] stores: an [int], a [str] or a [tuple]. *)
Definition stored_shape (v : value) : bool :=
  match v with VInt _ | VStr _ | VTuple _ => true | _ => false end.

(** One override entry is as [__setitem__] leaves it: the automaton has a
    default, the value passed the condition of line 47 and differs from
    the default. *)
Definition entry_ok (st : t) (kv : string * value) : bool :=
  stored_shape (snd kv)
  && match accepts st (fst kv) (snd kv) with Ok true => true | _ => false end
  && match Dict.get (defaults st) (fst kv) with
     | Some d => negb (py_eq (snd kv) d)
     | None => false
     end.

Definition wf (st : t) : Prop :=
  NoDup (Dict.keys (override st)) /\ forallb (entry_ok st) (override st) = true.

(** Writing the entries of [items] one after the other. *)
Definition apply_overrides (items : dict value) : M t unit :=
  for_each items (fun kv => __setitem__ (fst kv) (snd kv)).

(** An [InitialState] as new: the defaults and domains of [st], no
    override. *)
Definition same_model (st st0 : t) : Prop :=
  defaults st0 = defaults st /\ domain st0 = domain st.

(** The entries of a dictionary of [int] and [str] overrides. *)
Definition scalar_items (l : list (string * scalar)) : dict value :=
  map (fun kv => (fst kv, match snd kv with SInt z => VInt z | SStr s => VStr s end)) l.

(** The term of the query grammar for one [int] or [str] override: the
    automaton in double quotes, [=], then the digits of an integer or the
    string in double quotes. *)
Definition wire_term (kv : string * scalar) : string :=
  PyStr.dq ++ fst kv ++ PyStr.dq ++ "="
    ++ match snd kv with
       | SInt z => PyStr.str_of_int z
       | SStr s => PyStr.dq ++ s ++ PyStr.dq
       end.

(** What [__init__] makes of a default: a list becomes a tuple. *)
Definition tupled (v : value) : value :=
  match v with VList l => VTuple l | _ => v end.

(** Every automaton of the document has its two tables of local states. *)
Definition tables_cover (i : Info.t) : bool :=
  forallb (fun a => Dict.mem (Info.local_states i) a
                    && Dict.mem (Info.named_local_states i) a)
          (Info.automata i).

(** [a in l] for a list of strings. *)
Definition among (a : string) (l : list string) : bool :=
  existsb (String.eqb a) l.

End Invariant.

Module Demo.

(** Three automata: [A] over 0..1, [B] over 0..1 with the named state [x],
    [C] over 0..2; every default is 0. *)
Definition info : Info.t :=
  Info.mk ["A"; "B"; "C"]
          [("A", [SInt 0; SInt 1]); ("B", [SInt 0; SInt 1]);
           ("C", [SInt 0; SInt 1; SInt 2])]
          [("A", []); ("B", [SStr "x"]); ("C", [])]
          []
          [("A", VInt 0); ("B", VInt 0); ("C", VInt 0)].

(** [InitialState(info)]. *)
Definition fresh : InitialState.t :=
  InitialState.mk
    [("A", VInt 0); ("B", VInt 0); ("C", VInt 0)]
    [("A", [SInt 0; SInt 1]); ("B", [SInt 0; SInt 1; SStr "x"]);
     ("C", [SInt 0; SInt 1; SInt 2])]
    []
    [("A", VInt 0); ("B", VInt 0); ("C", VInt 0)].

(** The object a computation leaves behind. *)
Definition after {A} (c : M InitialState.t A) (st : InitialState.t)
  : InitialState.t := snd (c st).

(** [fresh] after [s["A"] = 1; s["B"] = "x"]. *)
Definition a1_bx : InitialState.t :=
  after (InitialState.__setitem__ "B" (VStr "x"))
        (after (InitialState.__setitem__ "A" (VInt 1)) fresh).

(** [fresh] after [s["C"] = [0, 1]]. *)
Definition c01 : InitialState.t :=
  after (InitialState.__setitem__ "C" (VList [SInt 0; SInt 1])) fresh.

(** A world for the loader: the paths that exist.  The pint process
    prints the document [info], logicalmodel writes its output file, a
    download writes the file it is asked for, and a name has a network
    location when it starts with [http://]. *)
Definition world : Type := list string.

Definition check_output (args : list string) (kwargs : dict string) (w : world)
  : outcome string * world := (Done "nbjson", w).
Definition json_loads (s : string) : outcome Info.t := Done info.
Definition check_call (args : list string) (w : world) : outcome unit * world :=
  (Done tt, (last args EmptyString :: w)%list).
Definition path_exists (p : string) (w : world) : bool :=
  existsb (String.eqb p) w.
Definition urlparse (s : string) : outcome (string * string) :=
  Done (if String.prefix "http://" s then "example.org" else EmptyString, s).
Definition urlretrieve (url f : string) (w : world) : outcome string * world :=
  (Done f, (f :: w)%list).
Definition new_output_file (suffix : string) (w : world) : outcome string * world :=
  (Done ("/tmp/pint/" ++ suffix), w).
Definition ui_info (msg : string) (w : world) : world := w.
Definition display_FileLink (p : string) (w : world) : world := w.

Definition load := load world check_output json_loads check_call path_exists
                        urlparse urlretrieve new_output_file ui_info
                        display_FileLink.

(** A loaded model, as [FileModel] leaves it. *)
Definition model : Model.t :=
  Model.mk FileModel_class [] (Some info) (Some (Some fresh))
           (Some "model.an") None.

(** A named state for every automaton, with a list for [C]. *)
Definition wildtype : dict value :=
  [("A", VInt 1); ("B", VInt 0); ("C", VList [SInt 0; SInt 1])].

(** Metadata without the table of local states of [A], and the model a
    reload that received it leaves behind. *)
Definition partial_info : Info.t :=
  Info.mk ["A"] [] [("A", [])] [] [("A", VInt 0)].

Definition partial_model : Model.t :=
  Model.mk FileModel_class [] (Some partial_info) (Some None)
           (Some "model.an") None.

End Demo.

(* ================================================================== *)
(** ** Sequences of operations on an initial state *)
(* ================================================================== *)

Module Trace.
Import InitialState.

(** What a user of an [InitialState] can do to it. *)
Inductive op : Type :=
| Write (key : string) (v : value)
| Delete (key : string)
| Reset.

(** The object after one operation, whether it returned or raised. *)
Definition step (o : op) (st : t) : t :=
  match o with
  | Write k v => snd (__setitem__ k v st)
  | Delete k => snd (__delitem__ k st)
  | Reset => snd (reset st)
  end.

Definition run (ops : list op) (st : t) : t :=
  fold_left (fun s o => step o s) ops st.

(** The entries of the inherited dictionary agree with the overrides. *)
Definition base_tracks (st : t) : Prop :=
  forall k v, Dict.get (override st) k = Some v -> Dict.get (base st) k = Some v.

End Trace.

(* ================================================================== *)
(** ** Facts about dictionaries *)
(* ================================================================== *)

Section DictFacts.
Context {V : Type}.
Implicit Types (d : dict V) (k : string) (v : V).

Lemma get_set_same d k v : Dict.get (Dict.set d k v) k = Some v.
Proof.
  induction d as [|[k' v'] r IH]; simpl.
  - now rewrite String.eqb_refl.
  - destruct (String.eqb k' k) eqn:E; simpl; rewrite E; auto.
Qed.

Lemma get_set_other d k k' v :
  k' <> k -> Dict.get (Dict.set d k v) k' = Dict.get d k'.
Proof.
  intros N. induction d as [|[k0 v0] r IH]; simpl.
  - destruct (String.eqb k k') eqn:E; auto.
    apply String.eqb_eq in E. congruence.
  - destruct (String.eqb k0 k) eqn:E; simpl.
    + apply String.eqb_eq in E. subst k0.
      destruct (String.eqb k k') eqn:E'; auto.
      apply String.eqb_eq in E'. congruence.
    + now rewrite IH.
Qed.

Lemma get_remove_same d k : Dict.get (Dict.remove d k) k = None.
Proof.
  unfold Dict.remove.
  induction d as [|[k' v'] r IH]; simpl; auto.
  destruct (String.eqb k' k) eqn:E; simpl; auto. now rewrite E.
Qed.

Lemma get_remove_other d k k' :
  k' <> k -> Dict.get (Dict.remove d k) k' = Dict.get d k'.
Proof.
  intros N. unfold Dict.remove.
  induction d as [|[k0 v0] r IH]; simpl; auto.
  destruct (String.eqb k0 k) eqn:E; simpl.
  - apply String.eqb_eq in E. subst k0.
    destruct (String.eqb k k') eqn:E'; auto.
    apply String.eqb_eq in E'. congruence.
  - now rewrite IH.
Qed.

Lemma get_none_not_key d k : Dict.get d k = None <-> ~ In k (Dict.keys d).
Proof.
  induction d as [|[k' v'] r IH]; simpl.
  - tauto.
  - destruct (String.eqb k' k) eqn:E.
    + apply String.eqb_eq in E. split; [discriminate | intros H; exfalso; auto].
    + apply String.eqb_neq in E. rewrite IH. tauto.
Qed.

(** A write to a key the dictionary does not hold goes to the end. *)
Lemma set_new_key d k v :
  Dict.get d k = None -> Dict.set d k v = (d ++ [(k, v)])%list.
Proof.
  induction d as [|[k' v'] r IH]; simpl; auto.
  destruct (String.eqb k' k) eqn:E; [discriminate|].
  intros H. now rewrite IH.
Qed.

Lemma mem_get d k : Dict.mem d k = true <-> exists v, Dict.get d k = Some v.
Proof.
  unfold Dict.mem. destruct (Dict.get d k); split; eauto; try discriminate.
  intros [v H]. discriminate.
Qed.

End DictFacts.

(* ================================================================== *)
(** ** InitialState: reset, delete, write *)
(* ================================================================== *)

Module InitialStateFacts.
Import InitialState Invariant.

Ltac run := unfold bind, get, put, lift, ret, raise; simpl.

Lemma fresh_is_constructed :
  __init__ Demo.info None = (Ok Demo.fresh, Info.initial_state Demo.info).
Proof. reflexivity. Qed.

(** C8.  After [reset()], [to_pint()] is the empty string, [is_custom()]
    is false, [self[a]] is [defaults[a]] for every [a], and [defaults] is
    what it was before the call. *)
Theorem reset_restores_defaults (st : t) :
  fst (reset st) = Ok tt
  /\ to_pint (snd (reset st)) = Ok EmptyString
  /\ is_custom (snd (reset st)) = false
  /\ (forall a, __getitem__ (snd (reset st)) a = Dict.item (defaults st) a)
  /\ defaults (snd (reset st)) = defaults st
  /\ domain (snd (reset st)) = domain st.
Proof.
  unfold reset. run. repeat split.
  intros a. unfold __getitem__. simpl.
  now destruct (Dict.item (defaults st) a).
Qed.

(** C4, as the code has it.  For an automaton [a] with a default:
    when [a] has an override, [del self[a]] returns, [a] has no override
    afterwards, [self[a]] is the default, and the defaults, the domains
    and the overrides of the other automata are untouched; when [a] has
    no override, [del self[a]] raises [KeyError(a)] and changes
    nothing. *)
Theorem delitem_override_or_keyerror (st : t) (a : string) (d : value)
  (Ha : Dict.get (defaults st) a = Some d) :
  match Dict.get (override st) a with
  | Some _ =>
      fst (__delitem__ a st) = Ok tt
      /\ Dict.get (override (snd (__delitem__ a st))) a = None
      /\ __getitem__ (snd (__delitem__ a st)) a = Ok d
      /\ defaults (snd (__delitem__ a st)) = defaults st
      /\ domain (snd (__delitem__ a st)) = domain st
      /\ (forall b, b <> a ->
            Dict.get (override (snd (__delitem__ a st))) b
            = Dict.get (override st) b)
  | None => __delitem__ a st = (Raise (KeyError a), st)
  end.
Proof.
  unfold __delitem__, Dict.del, Dict.mem, Dict.item. run.
  destruct (Dict.get (override st) a) eqn:Ho; simpl.
  - rewrite Ha. simpl. repeat split.
    + apply get_remove_same.
    + unfold __getitem__, Dict.item. simpl.
      now rewrite Ha, get_remove_same.
    + intros b Hb. now apply get_remove_other.
  - reflexivity.
Qed.

Lemma delitem_override_or_keyerror_witness :
  fst (__delitem__ "A" Demo.a1_bx) = Ok tt
  /\ Dict.get (override (snd (__delitem__ "A" Demo.a1_bx))) "A" = None
  /\ __getitem__ (snd (__delitem__ "A" Demo.a1_bx)) "A" = Ok (VInt 0)
  /\ defaults (snd (__delitem__ "A" Demo.a1_bx)) = defaults Demo.a1_bx
  /\ domain (snd (__delitem__ "A" Demo.a1_bx)) = domain Demo.a1_bx
  /\ (forall b, b <> "A" ->
        Dict.get (override (snd (__delitem__ "A" Demo.a1_bx))) b
        = Dict.get (override Demo.a1_bx) b).
Proof.
  exact (delitem_override_or_keyerror Demo.a1_bx "A" (VInt 0) eq_refl).
Defined.

(** C4 as stated fails: on the new state of the model [Demo.info], where
    automaton [A] has a default and no override, [del self["A"]] raises
    [KeyError]. *)
Lemma delitem_without_override_raises :
  Dict.get (defaults Demo.fresh) "A" = Some (VInt 0)
  /\ Dict.get (override Demo.fresh) "A" = None
  /\ fst (__delitem__ "A" Demo.fresh) = Raise (KeyError "A").
Proof. repeat split. Qed.

(** *** Writing the default value *)

Lemma scalar_eqb_refl (x : scalar) : scalar_eqb x x = true.
Proof. destruct x; simpl; [apply Z.eqb_refl | apply String.eqb_refl]. Qed.

Lemma scalar_eqb_eq (x y : scalar) : scalar_eqb x y = true <-> x = y.
Proof.
  destruct x, y; simpl; split; try discriminate.
  - intros H. apply Z.eqb_eq in H. now subst.
  - intros H. injection H as ->. apply Z.eqb_refl.
  - intros H. apply String.eqb_eq in H. now subst.
  - intros H. injection H as ->. apply String.eqb_refl.
Qed.

Lemma scalars_eqb_eq (l m : list scalar) : scalars_eqb l m = true <-> l = m.
Proof.
  revert m. induction l as [|x l IH]; intros [|y m]; simpl;
    split; try discriminate; auto.
  - intros H. apply andb_true_iff in H as [H1 H2].
    apply scalar_eqb_eq in H1. apply IH in H2. now subst.
  - intros H. injection H as -> ->. apply andb_true_iff. split.
    + apply scalar_eqb_refl.
    + now apply IH.
Qed.

(** On a value of a stored shape, [==] is equality. *)
Lemma py_eq_stored (v w : value) :
  stored_shape v = true -> (py_eq v w = true <-> v = w).
Proof.
  destruct v, w; simpl; try discriminate; intros _; split;
    try discriminate; intros H.
  - apply Z.eqb_eq in H. now subst.
  - injection H as ->. apply Z.eqb_refl.
  - apply String.eqb_eq in H. now subst.
  - injection H as ->. apply String.eqb_refl.
  - apply scalars_eqb_eq in H. now subst.
  - injection H as ->. now apply scalars_eqb_eq.
Qed.

Lemma stored_shape_normalise (v : value) :
  stored_shape v = true ->
  (if negb (is_scalar v) then normalise v else v) = v.
Proof. destruct v; simpl; auto; discriminate. Qed.

(** Writing the default of [a], when it passes the condition of line 47:
    with an override on [a] the write returns and removes it; with none,
    [del self.__override[key]] raises [KeyError] and nothing changes. *)
Lemma setitem_default (st : t) (a : string) (d : value) :
  Dict.get (defaults st) a = Some d ->
  stored_shape d = true ->
  accepts st a d = Ok true ->
  match Dict.get (override st) a with
  | Some _ =>
      __setitem__ a d st
      = (Ok tt, with_override st (Dict.remove (override st) a))
  | None => __setitem__ a d st = (Raise (KeyError a), st)
  end.
Proof.
  intros Hd Hs Hacc. unfold __setitem__.
  assert (accepted_type d = true) as -> by (destruct d; auto; discriminate).
  run. unfold Dict.mem, Dict.item. rewrite Hd, Hacc. simpl.
  rewrite (stored_shape_normalise _ Hs).
  assert (py_eq d d = true) as -> by now apply py_eq_stored.
  unfold Dict.del, Dict.mem.
  destruct (Dict.get (override st) a); reflexivity.
Qed.

(** C3 fails on the code.  On the new state of [Demo.info], automaton
    [A] has default 0, 0 is in its domain and [A] has no override:
    [self["A"] = 0] raises [KeyError("A")] and leaves the state as it
    was. *)
Theorem setitem_default_on_fresh_raises :
  Dict.get (defaults Demo.fresh) "A" = Some (VInt 0)
  /\ accepts Demo.fresh "A" (VInt 0) = Ok true
  /\ Dict.get (override Demo.fresh) "A" = None
  /\ __setitem__ "A" (VInt 0) Demo.fresh = (Raise (KeyError "A"), Demo.fresh).
Proof. repeat split. Qed.

(** *** Values outside the domain *)

(** An [int] outside the domain of a known automaton is refused, the
    state is unchanged, and the exception is the one of [set(value)]:
    its message does not list the domain. *)
Lemma setitem_int_outside_domain (st : t) (a : string) (dom : list scalar) (z : Z) :
  Dict.mem (defaults st) a = true ->
  Dict.get (domain st) a = Some dom ->
  member (SInt z) dom = false ->
  __setitem__ a (VInt z) st
  = (Raise (TypeError "'int' object is not iterable"), st).
Proof.
  intros Hm Hd Hz. unfold __setitem__. run. rewrite Hm. simpl.
  unfold accepts, Dict.item. simpl. rewrite Hd. simpl. now rewrite Hz.
Qed.

(** A list, set or tuple with an element outside the domain is refused
    with the message that lists the domain, and the state is unchanged. *)
Lemma setitem_compound_outside_domain (st : t) (a : string) (dom l : list scalar) :
  Dict.mem (defaults st) a = true ->
  Dict.get (domain st) a = Some dom ->
  issuperset dom (py_set l) = false ->
  __setitem__ a (VList l) st
  = (Raise (TypeError (invalid_value_msg a dom)), st).
Proof.
  intros Hm Hd Hl. unfold __setitem__. run. rewrite Hm. simpl.
  unfold accepts, Dict.item. simpl. rewrite Hd. simpl. now rewrite Hl.
Qed.

(** C2 fails on the code.  On the new state of [Demo.info], where the
    domain of [A] is 0, 1: [self["A"] = 99] raises the [TypeError] of
    [set(99)], whose message does not report the domain (the state is
    unchanged); and the empty string, which is not in the domain, is
    accepted and recorded as the override of [A]. *)
Theorem setitem_scalar_outside_domain_slips :
  Dict.get (domain Demo.fresh) "A" = Some [SInt 0; SInt 1]
  /\ __setitem__ "A" (VInt 99) Demo.fresh
     = (Raise (TypeError "'int' object is not iterable"), Demo.fresh)
  /\ invalid_value_msg "A" [SInt 0; SInt 1]
     = "Invalid value for 'A' (allowed: 0, 1)"
  /\ value_in (VStr EmptyString) [SInt 0; SInt 1] = false
  /\ fst (__setitem__ "A" (VStr EmptyString) Demo.fresh) = Ok tt
  /\ override (snd (__setitem__ "A" (VStr EmptyString) Demo.fresh))
     = [("A", VStr EmptyString)].
Proof. repeat split. Qed.

(** *** The query string of a compound override *)

(** The terms of a tuple override: one per element, each holding the
    Python text of a one-element list. *)
Lemma pint_of_keyvalue_tuple (a : string) (l : list scalar) :
  pint_of_keyvalue a (VTuple l)
  = Ok (map (fun j => PyStr.dq ++ a ++ PyStr.dq ++ "=["
                        ++ PyStr.repr (match j with
                                       | SInt z => PyStr.str_of_int z
                                       | SStr s => PyStr.dq ++ s ++ PyStr.dq
                                       end) ++ "]") l).
Proof.
  unfold pint_of_keyvalue. simpl. f_equal. rewrite map_map.
  apply map_ext. intros [z|s]; reflexivity.
Qed.

(** C1 fails on the code.  After [self["C"] = [0, 1]] on the new state
    of [Demo.info] (domain of [C]: 0, 1, 2) the override of [C] is the
    tuple (0, 1) and [to_pint()] gives one term per element, but each
    term holds a bracketed list, ['0'] and ['1'], where the claim has the
    bare digits. *)
Theorem to_pint_compound_terms_are_bracketed :
  override Demo.c01 = [("C", VTuple [SInt 0; SInt 1])]
  /\ to_pint Demo.c01
     = Ok (PyStr.dq ++ "C" ++ PyStr.dq ++ "=['0'],"
             ++ PyStr.dq ++ "C" ++ PyStr.dq ++ "=['1']")
  /\ to_pint Demo.c01
     <> Ok (PyStr.dq ++ "C" ++ PyStr.dq ++ "=0,"
              ++ PyStr.dq ++ "C" ++ PyStr.dq ++ "=1").
Proof. repeat split. discriminate. Qed.

(** *** Well-formed states *)

Lemma keys_set_in {V} (d : dict V) (k x : string) (v : V) :
  In x (Dict.keys (Dict.set d k v)) -> x = k \/ In x (Dict.keys d).
Proof.
  induction d as [|[k' v'] r IH]; simpl.
  - intros [H|[]]; auto.
  - destruct (String.eqb k' k) eqn:E; simpl; intros [H|H]; auto.
    destruct (IH H); auto.
Qed.

Lemma NoDup_keys_set {V} (d : dict V) (k : string) (v : V) :
  NoDup (Dict.keys d) -> NoDup (Dict.keys (Dict.set d k v)).
Proof.
  induction d as [|[k' v'] r IH]; simpl; intros H.
  - constructor; [intros [] | constructor].
  - inversion H as [|? ? Hn Hr]; subst.
    destruct (String.eqb k' k) eqn:E; simpl.
    + now constructor.
    + constructor; auto. intros Hin.
      apply keys_set_in in Hin as [->|Hin]; auto.
      now rewrite String.eqb_refl in E.
Qed.

Lemma NoDup_keys_remove {V} (d : dict V) (k : string) :
  NoDup (Dict.keys d) -> NoDup (Dict.keys (Dict.remove d k)).
Proof.
  unfold Dict.remove, Dict.keys.
  induction d as [|[k' v'] r IH]; simpl; intros H; auto.
  inversion H as [|? ? Hn Hr]; subst.
  destruct (String.eqb k' k); simpl; auto.
  constructor; auto. intros Hin. apply Hn.
  apply in_map_iff in Hin as [[x y] [Hx Hin]].
  apply filter_In in Hin as [Hin _].
  apply in_map_iff. now exists (x, y).
Qed.

Lemma forallb_set {V} (f : string * V -> bool) (d : dict V) (k : string) (v : V) :
  forallb f d = true -> f (k, v) = true -> forallb f (Dict.set d k v) = true.
Proof.
  intros Hd Hk. induction d as [|[k' v'] r IH]; simpl in *.
  - now rewrite Hk.
  - apply andb_true_iff in Hd as [H1 H2].
    destruct (String.eqb k' k) eqn:E; simpl.
    + apply String.eqb_eq in E. subst k'. now rewrite Hk.
    + now rewrite H1, IH.
Qed.

Lemma forallb_remove {V} (f : string * V -> bool) (d : dict V) (k : string) :
  forallb f d = true -> forallb f (Dict.remove d k) = true.
Proof.
  unfold Dict.remove. intros H. apply forallb_forall. intros x Hx.
  apply filter_In in Hx as [Hx _].
  now apply (proj1 (forallb_forall f d) H).
Qed.

(** The condition of line 47 reads the state through its domains only. *)
Lemma accepts_ext (st st' : t) (k : string) (v : value) :
  domain st' = domain st -> accepts st' k v = accepts st k v.
Proof. intros H. unfold accepts. now rewrite H. Qed.

Lemma entry_ok_ext (st st' : t) (kv : string * value) :
  defaults st' = defaults st -> domain st' = domain st ->
  entry_ok st' kv = entry_ok st kv.
Proof.
  intros Hd Hm. unfold entry_ok. now rewrite (accepts_ext st st' _ _ Hm), Hd.
Qed.

Lemma forallb_entry_ok_ext (st st' : t) (d : dict value) :
  defaults st' = defaults st -> domain st' = domain st ->
  forallb (entry_ok st') d = forallb (entry_ok st) d.
Proof.
  intros Hd Hm. induction d as [|kv r IH]; simpl; auto.
  now rewrite IH, (entry_ok_ext st st' kv Hd Hm).
Qed.

(** The tuple made of a list or set passes the condition exactly when
    the list or set does. *)
Lemma accepts_normalise (st : t) (k : string) (v : value) :
  is_scalar v = false -> accepts st k (normalise v) = accepts st k v.
Proof. destruct v; simpl; try discriminate; reflexivity. Qed.

Lemma wf_new (i : Info.t) (dflt : option (dict value)) (st : t) (d : dict value) :
  __init__ i dflt = (Ok st, d) -> wf st.
Proof.
  unfold __init__.
  destruct (for_each _ _ _) as [[u|e] [dom d']]; intros H; inversion H; subst.
  split; simpl; [constructor | reflexivity].
Qed.

Lemma wf_setitem (st : t) (k : string) (v : value) :
  wf st -> wf (snd (__setitem__ k v st)).
Proof.
  intros [Hn Hf]. unfold __setitem__.
  destruct (accepted_type v) eqn:Ht; simpl; [|now split].
  run. destruct (Dict.mem (defaults st) k) eqn:Hm; simpl; [|now split].
  destruct (accepts st k v) as [[|]|e] eqn:Ha; simpl; try now split.
  - unfold Dict.mem in Hm. unfold Dict.item.
    destruct (Dict.get (defaults st) k) as [d|] eqn:Hd; [|discriminate]. simpl.
    set (v' := if negb (is_scalar v) then normalise v else v).
    assert (Hsh : stored_shape v' = true)
      by (subst v'; destruct v; simpl in *; auto; discriminate).
    assert (Hacc : accepts st k v' = Ok true).
    { subst v'. destruct (is_scalar v) eqn:Hs; simpl; auto.
      now rewrite accepts_normalise. }
    destruct (py_eq v' d) eqn:He; simpl.
    + unfold Dict.del. destruct (Dict.mem (override st) k); simpl; [|now split].
      split; simpl.
      * now apply NoDup_keys_remove.
      * rewrite (forallb_entry_ok_ext st) by reflexivity.
        now apply forallb_remove.
    + split; simpl.
      * now apply NoDup_keys_set.
      * rewrite (forallb_entry_ok_ext st) by reflexivity.
        apply forallb_set; auto.
        unfold entry_ok. simpl. now rewrite Hsh, Hacc, Hd, He.
  - destruct (Dict.item (domain st) k); simpl; now split.
Qed.

Lemma wf_delitem (st : t) (k : string) : wf st -> wf (snd (__delitem__ k st)).
Proof.
  intros [Hn Hf]. unfold __delitem__, Dict.del. run.
  destruct (Dict.mem (override st) k); simpl; [|now split].
  assert (wf (with_override st (Dict.remove (override st) k))) as Hw.
  { split; simpl.
    - now apply NoDup_keys_remove.
    - rewrite (forallb_entry_ok_ext st) by reflexivity.
      now apply forallb_remove. }
  destruct (Dict.item (defaults st) k); simpl; exact Hw.
Qed.

Lemma wf_reset (st : t) : wf (snd (reset st)).
Proof. unfold reset. run. split; simpl; [constructor | reflexivity]. Qed.

(** *** The query string of scalar overrides, and replaying overrides *)

Lemma to_pint_terms_scalar (l : list (string * scalar)) (acc : list string) :
  to_pint_terms (scalar_items l) acc = Ok (acc ++ map wire_term l)%list.
Proof.
  revert acc. induction l as [|[a [z|x]] l IH]; intros acc; simpl.
  - now rewrite app_nil_r.
  - unfold pint_of_keyvalue. simpl. rewrite IH, <- app_assoc. reflexivity.
  - unfold pint_of_keyvalue. simpl. rewrite IH, <- app_assoc. reflexivity.
Qed.

(** Writing an entry of a well-formed state into a state of the same
    model that has no override on that key: the write returns and the
    entry goes to the end of the overrides. *)
Lemma setitem_entry (st st0 : t) (k : string) (v : value) :
  same_model st st0 ->
  entry_ok st (k, v) = true ->
  Dict.get (override st0) k = None ->
  __setitem__ k v st0
  = (Ok tt, mk (defaults st0) (domain st0) (override st0 ++ [(k, v)])%list
               (Dict.set (base st0) k v)).
Proof.
  intros [Hd Hm] He Hk. unfold entry_ok in He. simpl in He.
  apply andb_true_iff in He as [He H3]. apply andb_true_iff in He as [H1 H2].
  destruct (accepts st k v) as [[|]|e] eqn:Ha; try discriminate.
  destruct (Dict.get (defaults st) k) as [d|] eqn:Hg; [|discriminate].
  unfold __setitem__.
  assert (accepted_type v = true) as -> by (destruct v; auto; discriminate).
  run. unfold Dict.mem, Dict.item.
  rewrite Hd, Hg, (accepts_ext st st0 _ _ Hm), Ha. simpl.
  rewrite (stored_shape_normalise _ H1).
  apply negb_true_iff in H3. rewrite H3.
  now rewrite set_new_key.
Qed.

Lemma apply_overrides_cons (k : string) (v : value) (rest : dict value) (st0 : t) :
  apply_overrides ((k, v) :: rest) st0
  = match __setitem__ k v st0 with
    | (Ok _, s) => apply_overrides rest s
    | (Raise e, s) => (Raise e, s)
    end.
Proof. reflexivity. Qed.

Lemma replay (st : t) (rest : dict value) :
  forall st0,
    same_model st st0 ->
    NoDup (Dict.keys (override st0 ++ rest)%list) ->
    forallb (entry_ok st) rest = true ->
    fst (apply_overrides rest st0) = Ok tt
    /\ override (snd (apply_overrides rest st0)) = (override st0 ++ rest)%list
    /\ same_model st (snd (apply_overrides rest st0)).
Proof.
  induction rest as [|[k v] rest IH]; intros st0 Hs Hn Hf.
  - simpl. rewrite app_nil_r. auto.
  - simpl in Hf. apply andb_true_iff in Hf as [Hkv Hf].
    assert (Hk : Dict.get (override st0) k = None).
    { apply get_none_not_key. unfold Dict.keys in *. rewrite map_app in Hn.
      simpl in Hn. apply NoDup_remove_2 in Hn. intros Hin. apply Hn.
      apply in_or_app. now left. }
    rewrite apply_overrides_cons, (setitem_entry st st0 k v Hs Hkv Hk).
    set (st1 := mk _ _ _ _).
    assert (Hs1 : same_model st st1) by exact Hs.
    specialize (IH st1 Hs1). simpl in IH.
    rewrite <- app_assoc in IH. simpl in IH.
    exact (IH Hn Hf).
Qed.

(** C5.  [to_pint()] reads the overrides only and joins one term per
    entry with commas, in the order of the entries: with the overrides
    A: 1, B: x (a string) it returns the text: double-quoted A, =1, a
    comma, double-quoted B, =, double-quoted x; with [int] and [str]
    overrides in general, the terms of [wire_term] in order.  Writing
    the overrides of a well-formed state, in order, into a state of the
    same model without overrides returns without an exception and gives
    the same overrides and the same value [self[a]] for every [a]. *)
Theorem to_pint_scalar_overrides_roundtrip
  (st st0 : t) (l : list (string * scalar)) :
  wf st -> same_model st st0 -> override st0 = [] ->
  to_pint (with_override st [("A", VInt 1); ("B", VStr "x")])
  = Ok (PyStr.dq ++ "A" ++ PyStr.dq ++ "=1,"
          ++ PyStr.dq ++ "B" ++ PyStr.dq ++ "=" ++ PyStr.dq ++ "x" ++ PyStr.dq)
  /\ to_pint (with_override st (scalar_items l))
     = Ok (PyStr.join "," (map wire_term l))
  /\ fst (apply_overrides (override st) st0) = Ok tt
  /\ override (snd (apply_overrides (override st) st0)) = override st
  /\ (forall a, __getitem__ (snd (apply_overrides (override st) st0)) a
                = __getitem__ st a).
Proof.
  intros [Hn Hf] Hs H0.
  split; [reflexivity|].
  split; [unfold to_pint; simpl; now rewrite to_pint_terms_scalar|].
  destruct (replay st (override st) st0 Hs) as (R1 & R2 & R3 & R4); auto.
  { now rewrite H0. }
  rewrite H0 in R2. simpl in R2.
  repeat split; auto.
  intros a. unfold __getitem__. now rewrite R2, R3.
Qed.

Lemma to_pint_scalar_overrides_roundtrip_witness :
  to_pint Demo.a1_bx
  = Ok (PyStr.dq ++ "A" ++ PyStr.dq ++ "=1,"
          ++ PyStr.dq ++ "B" ++ PyStr.dq ++ "=" ++ PyStr.dq ++ "x" ++ PyStr.dq)
  /\ override (snd (apply_overrides (override Demo.a1_bx) Demo.fresh))
     = [("A", VInt 1); ("B", VStr "x")]
  /\ __getitem__ (snd (apply_overrides (override Demo.a1_bx) Demo.fresh)) "B"
     = Ok (VStr "x").
Proof.
  assert (Hw : wf Demo.a1_bx).
  { split; [|reflexivity]. simpl.
    repeat constructor; simpl; intuition discriminate. }
  destruct (to_pint_scalar_overrides_roundtrip
              Demo.a1_bx Demo.fresh [("A", SInt 1); ("B", SStr "x")]
              Hw (conj eq_refl eq_refl) eq_refl)
    as (H1 & _ & _ & H4 & H5).
  split; [exact H1|]. split; [exact H4|]. exact (H5 "B").
Defined.

End InitialStateFacts.

(* ================================================================== *)
(** ** Constructing an InitialState; named states *)
(* ================================================================== *)

Module ConstructionFacts.
Import InitialState Invariant.

Ltac run := unfold bind, get, put, lift, ret, raise; simpl.

Lemma tupled_idem (v : value) : tupled (tupled v) = tupled v.
Proof. now destruct v. Qed.

Lemma among_In (a : string) (l : list string) : among a l = true <-> In a l.
Proof.
  unfold among. rewrite existsb_exists. split.
  - intros [x [Hx E]]. apply String.eqb_eq in E. now subst.
  - intros H. exists a. split; auto. apply String.eqb_refl.
Qed.

(** One round of the loop, when the automaton has its tables and its
    default. *)
Lemma init_step_ok (i : Info.t) (a : string) (dom : dict (list scalar))
  (d : dict value) (ls nls : list scalar) (v : value) :
  Dict.get (Info.local_states i) a = Some ls ->
  Dict.get (Info.named_local_states i) a = Some nls ->
  Dict.get d a = Some v ->
  exists d',
    init_step i a (dom, d) = (Ok tt, (Dict.set dom a (py_set (ls ++ nls)), d'))
    /\ forall k, Dict.get d' k
                 = if String.eqb k a then Some (tupled v) else Dict.get d k.
Proof.
  intros Hl Hn Hd. unfold init_step, Dict.item. run. rewrite Hl, Hn. simpl.
  rewrite Hd. simpl.
  assert (Hsame : forall k, Dict.get d k
                            = if String.eqb k a then Some v else Dict.get d k).
  { intros k. destruct (String.eqb k a) eqn:E; auto.
    apply String.eqb_eq in E. now subst. }
  destruct v; simpl; try (eexists; split; [reflexivity | exact Hsame]).
  eexists. split; [reflexivity|]. intros k.
  destruct (String.eqb k a) eqn:E.
  - apply String.eqb_eq in E. subst. apply get_set_same.
  - apply String.eqb_neq in E. now apply get_set_other.
Qed.

(** One round of the loop raises nothing but [KeyError], and raises it
    when the default is missing. *)
Lemma init_step_cases (i : Info.t) (a : string) (dom : dict (list scalar))
  (d : dict value) :
  (exists k s, init_step i a (dom, d) = (Raise (KeyError k), s)
               /\ forall x, Dict.get (snd s) x = Dict.get d x)
  \/ (exists ls nls v,
         Dict.get (Info.local_states i) a = Some ls
         /\ Dict.get (Info.named_local_states i) a = Some nls
         /\ Dict.get d a = Some v).
Proof.
  destruct (Dict.get (Info.local_states i) a) as [ls|] eqn:Hl.
  2:{ left. exists a, (dom, d). unfold init_step, Dict.item. run.
      rewrite Hl. simpl. auto. }
  destruct (Dict.get (Info.named_local_states i) a) as [nls|] eqn:Hn.
  2:{ left. exists a, (dom, d). unfold init_step, Dict.item. run.
      rewrite Hl, Hn. simpl. auto. }
  destruct (Dict.get d a) as [v|] eqn:Hd.
  2:{ left. exists a, (Dict.set dom a (py_set (ls ++ nls)), d).
      unfold init_step, Dict.item. run. rewrite Hl, Hn. simpl.
      rewrite Hd. simpl. auto. }
  right. now exists ls, nls, v.
Qed.

(** The loop returns when every automaton has its tables and its
    default; it then leaves in [defaults] the tuples of the list entries
    of the automata, and every other entry as it was. *)
Lemma init_loop_ok (i : Info.t) (l : list string) :
  forall (dom : dict (list scalar)) (d : dict value),
    (forall a, In a l ->
       Dict.mem (Info.local_states i) a = true
       /\ Dict.mem (Info.named_local_states i) a = true
       /\ Dict.mem d a = true) ->
    exists dom' d',
      for_each l (init_step i) (dom, d) = (Ok tt, (dom', d'))
      /\ forall k, Dict.get d' k
                   = if among k l then option_map tupled (Dict.get d k)
                     else Dict.get d k.
Proof.
  induction l as [|a l IH]; intros dom d H.
  - exists dom, d. split; auto.
  - destruct (H a (or_introl eq_refl)) as (H1 & H2 & H3).
    apply mem_get in H1 as [ls Hl]. apply mem_get in H2 as [nls Hn].
    apply mem_get in H3 as [v Hd].
    destruct (init_step_ok i a dom d ls nls v Hl Hn Hd) as (d1 & Hstep & Hd1).
    destruct (IH (Dict.set dom a (py_set (ls ++ nls))) d1) as (dom' & d' & Hloop & Hd').
    { intros b Hb. destruct (H b (or_intror Hb)) as (B1 & B2 & B3).
      repeat split; auto. apply mem_get. rewrite Hd1.
      destruct (String.eqb b a); eauto. now apply mem_get. }
    exists dom', d'. split.
    + simpl. unfold bind. now rewrite Hstep.
    + intros k. rewrite Hd', Hd1. unfold among. simpl.
      fold (among k l). destruct (String.eqb k a) eqn:E.
      * apply String.eqb_eq in E. subst k. rewrite Hd. simpl.
        rewrite tupled_idem. now destruct (among a l).
      * reflexivity.
Qed.

(** The loop raises [KeyError] when an automaton has no default. *)
Lemma init_loop_missing (i : Info.t) (l : list string) :
  forall (dom : dict (list scalar)) (d : dict value),
    (exists a, In a l /\ Dict.get d a = None) ->
    exists k s, for_each l (init_step i) (dom, d) = (Raise (KeyError k), s).
Proof.
  induction l as [|a l IH]; intros dom d [b [Hb Hn]].
  - destruct Hb.
  - destruct (init_step_cases i a dom d) as [(k & s & Hs & _)|(ls & nls & v & Hl & Hn' & Hd)].
    + exists k, s. simpl. unfold bind. now rewrite Hs.
    + destruct (init_step_ok i a dom d ls nls v Hl Hn' Hd) as (d1 & Hstep & Hd1).
      destruct Hb as [->|Hb]; [congruence|].
      destruct (IH (Dict.set dom a (py_set (ls ++ nls))) d1) as (k & s & Hloop).
      { exists b. split; auto. rewrite Hd1.
        destruct (String.eqb b a) eqn:E; auto.
        apply String.eqb_eq in E. congruence. }
      exists k, s. simpl. unfold bind. now rewrite Hstep.
Qed.

(** A loop that returned found the tables of every automaton. *)
Lemma init_loop_returns_covers (i : Info.t) (l : list string) :
  forall s s',
    for_each l (init_step i) s = (Ok tt, s') ->
    forallb (fun a => Dict.mem (Info.local_states i) a
                      && Dict.mem (Info.named_local_states i) a) l = true.
Proof.
  induction l as [|a l IH]; intros [dom d] s' H; auto.
  simpl in *. unfold bind in H.
  destruct (init_step_cases i a dom d) as [(k & s & Hs & _)|(ls & nls & v & Hl & Hn & Hd)].
  - rewrite Hs in H. discriminate.
  - destruct (init_step_ok i a dom d ls nls v Hl Hn Hd) as (d1 & Hstep & _).
    rewrite Hstep in H. unfold Dict.mem. rewrite Hl, Hn. simpl. eauto.
Qed.

Lemma init_returns_covers (i : Info.t) (dflt : option (dict value)) (st : t)
  (d : dict value) :
  __init__ i dflt = (Ok st, d) -> tables_cover i = true.
Proof.
  unfold __init__, tables_cover.
  destruct (for_each _ _ _) as [[[]|e] [dom d']] eqn:E; intros H; [|discriminate].
  eapply init_loop_returns_covers. exact E.
Qed.

(** [__init__] in terms of the outcome of its loop. *)
Lemma init_of_loop (i : Info.t) (state : dict value) (r : result unit)
  (dom : dict (list scalar)) (d : dict value) :
  for_each (Info.automata i) (init_step i) ([], state) = (r, (dom, d)) ->
  __init__ i (Some state)
  = (match r with Ok _ => Ok (mk d dom [] state) | Raise e => Raise e end, d).
Proof.
  intros H. unfold __init__. cbv beta iota zeta.
  match goal with
  | |- context [for_each ?l ?f ?s] =>
      replace (for_each l f s) with (r, (dom, d)) by (symmetry; exact H)
  end.
  now destruct r.
Qed.

(** A state without automaton [C] is refused with [KeyError("C")]. *)
Lemma register_state_missing_automaton :
  Model.register_state "partial" (Demo.model, [("A", VInt 1); ("B", VInt 0)])
  = (Raise (KeyError "C"), (Demo.model, [("A", VInt 1); ("B", VInt 0)])).
Proof. reflexivity. Qed.

End ConstructionFacts.

(* ================================================================== *)
(** ** The model classes and the loader *)
(* ================================================================== *)

Section LoaderFacts.

Variable W : Type.
Variable check_output : list string -> dict string -> W -> outcome string * W.
Variable json_loads : string -> outcome Info.t.
Variable check_call : list string -> W -> outcome unit * W.
Variable path_exists : string -> W -> bool.
Variable urlparse : string -> outcome (string * string).
Variable urlretrieve : string -> string -> W -> outcome string * W.
Variable new_output_file : string -> W -> outcome string * W.
Variable ui_info : string -> W -> W.
Variable display_FileLink : string -> W -> W.

Local Abbreviation Model_load' := (Model_load W check_output json_loads).
Local Abbreviation FileModel' := (FileModel W check_output json_loads).
Local Abbreviation import' :=
  (import_using_logicalmodel W check_output json_loads check_call ui_info
                             display_FileLink).
Local Abbreviation fetch' :=
  (load_fetch W path_exists urlparse urlretrieve new_output_file ui_info).
Local Abbreviation dispatch' :=
  (load_dispatch W check_output json_loads check_call new_output_file ui_info
                 display_FileLink).
Local Abbreviation fetched' :=
  (fetched W path_exists urlparse urlretrieve new_output_file ui_info).
Local Abbreviation load' :=
  (load W check_output json_loads check_call path_exists urlparse urlretrieve
        new_output_file ui_info display_FileLink).

(** C9.  [InMemoryModel(data)] raises for every [data], every world and
    every behaviour of the collaborators: [load()] calls the hook
    [populate_popen_args] of the class, which asks for
    [super(FileModel, self)] on an instance that is no [FileModel], a
    [TypeError]; no process has been started and the world is as it
    was. *)
Theorem InMemoryModel_always_raises (data : string) (w : W) :
  mro InMemoryModel_class = [InMemoryModel_class; Model_class]
  /\ super FileModel_class InMemoryModel_class
     = Raise (TypeError "super(type, obj): obj must be an instance or subtype of type")
  /\ InMemoryModel W check_output json_loads data w
     = (Raise (TypeError "super(type, obj): obj must be an instance or subtype of type"),
        w).
Proof.
  split; [reflexivity|]. split.
  - unfold super. simpl. reflexivity.
  - unfold InMemoryModel, construct, Model_load, bind, get, put, lift. simpl.
    reflexivity.
Qed.

(** [FileModel(filename)] passes the hook: the process is called with
    [-i filename]. *)
Lemma FileModel_populate (f : string) :
  Model.populate_popen_args
    (Model.with_initial_state
       (Model.mk FileModel_class [] None None (Some f) None) None)
    (["pint-export"; "-l"; "nbjson"], [])
  = Ok (["pint-export"; "-l"; "nbjson"; "-i"; f], []).
Proof. reflexivity. Qed.

(** *** What the stages of [load] can raise *)

Lemma init_loop_raises (i : Info.t) (l : list string) :
  forall s e s',
    for_each l (InitialState.init_step i) s = (Raise e, s') ->
    exists k, e = KeyError k.
Proof.
  induction l as [|a l IH]; intros [dom d] e s' H; [discriminate|].
  simpl in H. unfold bind in H.
  destruct (ConstructionFacts.init_step_cases i a dom d)
    as [(k & s & Hs & _)|(ls & nls & v & Hl & Hn & Hd)].
  - rewrite Hs in H. inversion H. eauto.
  - destruct (ConstructionFacts.init_step_ok i a dom d ls nls v Hl Hn Hd)
      as (d1 & Hstep & _).
    rewrite Hstep in H. eauto.
Qed.

Lemma init_raises (i : Info.t) (dflt : option (dict value)) (e : exn)
  (d : dict value) :
  InitialState.__init__ i dflt = (Raise e, d) -> exists k, e = KeyError k.
Proof.
  unfold InitialState.__init__.
  destruct (for_each _ _ _) as [[u|e0] [dom d']] eqn:E; intros H; inversion H.
  subst. eapply init_loop_raises. exact E.
Qed.

Definition benign (e : exn) : Prop :=
  e = AssertionError None \/ (exists x, e = External x) \/ (exists k, e = KeyError k).

Lemma benign_not_unsupported (e : exn) :
  benign e -> ~ is_unsupported_format e.
Proof.
  intros [->|[[x ->]|[k ->]]] [[y H]|[y H]]; discriminate.
Qed.

Lemma FileModel_raises (f : string) (w w' : W) (e : exn) :
  FileModel' f w = (Raise e, w') -> benign e.
Proof.
  unfold FileModel, construct, Model_load, bind, get, put, lift. simpl.
  destruct (check_output _ _ w) as [[out|x] w1]; simpl.
  2:{ intros H. inversion H. right. left. eauto. }
  destruct (json_loads out) as [i|x]; simpl.
  2:{ intros H. inversion H. right. left. eauto. }
  destruct (InitialState.__init__ i None) as [[st|e0] d] eqn:E; simpl;
    intros H; inversion H; subst.
  right. right. eapply init_raises. exact E.
Qed.

Lemma import_raises (fmt inp an : string) (simplify : bool) (w w' : W) (e : exn) :
  import' fmt inp an simplify w = (Raise e, w') -> benign e.
Proof.
  unfold import_using_logicalmodel, call, tell, bind, ret, lift.
  destruct (check_call _ w) as [[[]|x] w1]; simpl.
  2:{ intros H. inversion H. right. left. eauto. }
  assert (Hrest : forall w2,
             (let (r, s') := FileModel' an (display_FileLink an w2) in
              match r with
              | Ok a => (register_states [] a, s')
              | Raise e0 => (Raise e0, s')
              end) = (Raise e, w') -> benign e).
  { intros w2. destruct (FileModel' an _) as [[m|e0] w3] eqn:E; simpl;
      intros H; inversion H; subst. eapply FileModel_raises. exact E. }
  destruct simplify.
  - destruct (check_call _ (ui_info _ w1)) as [[[]|x] w2]; simpl.
    + apply Hrest.
    + intros H. inversion H. right. left. eauto.
  - apply Hrest.
Qed.

Lemma fetch_raises (filename b : string) (w w' : W) (e : exn) :
  fetch' filename b w = (Raise e, w') -> benign e.
Proof.
  unfold load_fetch, call, tell, bind, ret, lift, raise, get.
  destruct (urlparse filename) as [[netloc url]|x]; simpl.
  2:{ intros H. inversion H. right. left. eauto. }
  destruct (negb (String.eqb netloc EmptyString)).
  - destruct (new_output_file b w) as [[f|x] w1]; simpl.
    2:{ intros H. inversion H. right. left. eauto. }
    destruct (urlretrieve url f _) as [[f'|x] w2]; simpl;
      intros H; inversion H. right. left. eauto.
  - destruct (path_exists filename w); intros H; inversion H. now left.
Qed.

(** The dispatch refuses the format exactly when it is none of the five
    formats. *)
Lemma dispatch_unsupported_iff (f fn name : string) (simplify : bool) (w : W) :
  (exists e, fst (dispatch' f fn name simplify w) = Raise e
             /\ is_unsupported_format e)
  <-> supported f = false.
Proof.
  unfold load_dispatch, supported.
  destruct (String.eqb f "an") eqn:Ean; cbn [orb].
  - split; [|discriminate]. intros (e & He & Hu). exfalso.
    unfold bind, tell in He.
    destruct (FileModel' fn _) as [r w1] eqn:E. simpl in He. subst r.
    apply (benign_not_unsupported e); auto. eapply FileModel_raises. exact E.
  - destruct (str_in f ["boolfunctions"; "boolsim"; "booleannet"; "sbml"]) eqn:Ef.
    + split; [|discriminate]. intros (e & He & Hu). exfalso.
      apply (benign_not_unsupported e); auto.
      unfold bind, tell, call in He.
      destruct (new_output_file _ _) as [[anfile|x] w1]; simpl in He.
      * destruct (import' f fn anfile simplify w1) as [r w2] eqn:E.
        simpl in He. subst r. eapply import_raises. exact E.
      * inversion He. right. left. eauto.
    + split; auto. intros _. eexists. split; [reflexivity|].
      right. now exists f.
Qed.

(** A file name without a dot: [file_ext] returns [None] and [load]
    raises at [len(ext)], whatever format is declared. *)
Lemma load_without_extension (filename : string) (format : option string)
  (simplify : bool) (w : W) :
  file_ext filename = None ->
  load' filename format simplify w
  = (Raise (TypeError "object of type 'NoneType' has no len()"), w).
Proof. intros H. unfold load, bind, raise. now rewrite H. Qed.

(** C7 fails on the code.  For the file name [model], which has no dot,
    [load] raises the [TypeError] of [len(None)] for every declared
    format, [an] included, in every world (so also when the file
    exists), before any collaborator is called. *)
Theorem load_declared_format_dotless_raises
  (format : option string) (simplify : bool) (w : W) :
  file_ext "model" = None
  /\ load' "model" format simplify w
     = (Raise (TypeError "object of type 'NoneType' has no len()"), w).
Proof. split; reflexivity. Qed.

(** C6, as the code has it.  For a file name with an extension [ext],
    [load] ends with one of the two exceptions that refuse a format
    exactly when no format is declared and [ext] is not in [ext2format],
    or the format (declared, or looked up by [ext]) is none of [an],
    [boolfunctions], [boolsim], [booleannet], [sbml] and lines 206-213
    returned (the local file exists, or the download succeeded).  The
    name [model.bn] has extension [bn], which the table maps to
    [boolfunctions], [model.sbml] resolves to [sbml] and upper case is
    lowered; [model.xyz] with no declared format fails the assertion on
    the extension in every world. *)
Theorem load_unsupported_format_iff
  (filename : string) (format : option string) (simplify : bool) (w : W)
  (ext : string) :
  file_ext filename = Some ext ->
  ((exists e, fst (load' filename format simplify w) = Raise e
              /\ is_unsupported_format e)
   <-> (format = None /\ Dict.get ext2format ext = None)
       \/ (exists f, load_format (Some ext) format = Ok f
                     /\ supported f = false
                     /\ fetched' filename w))
  /\ load_format (file_ext "model.bn") None = Ok "boolfunctions"
  /\ load_format (file_ext "model.sbml") None = Ok "sbml"
  /\ load_format (file_ext "dir.d/MODEL.BN") None = Ok "boolfunctions"
  /\ load' "model.xyz" None simplify w
     = (Raise (AssertionError (Some "Unknown extension 'xyz'")), w).
Proof.
  intros Hext. split; [|repeat split].
  unfold load, bind, ret, lift. rewrite Hext. cbv beta iota.
  destruct (load_format (Some ext) format) as [f|e0] eqn:Hf.
  - assert (Hnl : ~ (format = None /\ Dict.get ext2format ext = None)).
    { intros [-> Hg]. unfold load_format in Hf. now rewrite Hg in Hf. }
    destruct (fetch' filename (PyStr.basename filename) w) as [[fn|e1] w1] eqn:Hfetch.
    + rewrite dispatch_unsupported_iff. split.
      * intros Hs. right. exists f. repeat split; auto. now exists fn, w1.
      * intros [H|(f' & Heq & Hs & _)]; [tauto|]. now inversion Heq; subst.
    + split.
      * intros (e & He & Hu). simpl in He. inversion He; subst. exfalso.
        apply (benign_not_unsupported e); auto. eapply fetch_raises. exact Hfetch.
      * intros [H|(f' & _ & _ & fn & w2 & Hfn)]; [tauto|].
        unfold fetched in *. rewrite Hfetch in Hfn. discriminate.
  - unfold load_format in Hf. destruct format as [f|]; [discriminate|].
    destruct (Dict.get ext2format ext) as [f|] eqn:Hg; inversion Hf; subst.
    split.
    + intros _. now left.
    + intros _. eexists. split; [reflexivity|]. left. now exists ext.
Qed.

End LoaderFacts.

(** The theorem on the world of [Demo]: the declared format [zginml] on
    the existing file [model.an] is refused as unsupported. *)
Lemma load_unsupported_format_iff_witness :
  file_ext "model.an" = Some "an"
  /\ exists e, fst (Demo.load "model.an" (Some "zginml") true ["model.an"]) = Raise e
               /\ is_unsupported_format e.
Proof.
  split; [reflexivity|].
  apply (proj2 (proj1 (load_unsupported_format_iff
                         Demo.world Demo.check_output Demo.json_loads
                         Demo.check_call Demo.path_exists Demo.urlparse
                         Demo.urlretrieve Demo.new_output_file Demo.ui_info
                         Demo.display_FileLink
                         "model.an" (Some "zginml") true ["model.an"] "an"
                         eq_refl))).
  right. exists "zginml". repeat split.
  exists "model.an", ["model.an"]. reflexivity.
Defined.

(** C6 as stated fails: with the declared format [zginml], which is
    outside the two sets, on a file that does not exist, [load] ends
    with the assertion on [os.path.exists], which is none of the two
    exceptions that refuse a format. *)
Lemma load_unsupported_format_missing_file :
  file_ext "model.an" = Some "an"
  /\ load_format (file_ext "model.an") (Some "zginml") = Ok "zginml"
  /\ supported "zginml" = false
  /\ Demo.load "model.an" (Some "zginml") true [] = (Raise (AssertionError None), [])
  /\ ~ is_unsupported_format (AssertionError None).
Proof.
  repeat split. intros [[x H]|[f H]]; discriminate.
Qed.

(** Loading the native file [model.an] of the world of [Demo] builds a
    model with no named state whose initial state has no override. *)
Lemma load_native_demo :
  exists m, Demo.load "model.an" None true ["model.an"] = (Ok m, ["model.an"])
            /\ Model.named_states m = []
            /\ Model.initial_state m = Some (Some Demo.fresh)
            /\ InitialState.is_custom Demo.fresh = false.
Proof. eexists. repeat split. Qed.

(* ================================================================== *)
(** ** InitialState: failures, writes, reachable states *)
(* ================================================================== *)

Module InitialStateMore.
Import InitialState Invariant Trace InitialStateFacts.

Lemma get_In {V} (d : dict V) (k : string) (v : V) :
  Dict.get d k = Some v -> In (k, v) d.
Proof.
  induction d as [|[k' v'] r IH]; simpl; [discriminate|].
  destruct (String.eqb k' k) eqn:E.
  - apply String.eqb_eq in E. intros H. inversion H. subst. now left.
  - intros H. right. auto.
Qed.

Lemma keys_set {V} (d : dict V) (k : string) (v : V) :
  Dict.keys (Dict.set d k v)
  = if Dict.mem d k then Dict.keys d else (Dict.keys d ++ [k])%list.
Proof.
  unfold Dict.mem.
  induction d as [|[k' v'] r IH]; simpl; auto.
  destruct (String.eqb k' k) eqn:E; simpl; auto.
  rewrite IH. now destruct (Dict.get r k).
Qed.

Lemma remove_appended {V} (d : dict V) (k : string) (v : V) :
  Dict.get d k = None -> Dict.remove (d ++ [(k, v)])%list k = d.
Proof.
  unfold Dict.remove.
  induction d as [|[k' v'] r IH]; simpl.
  - now rewrite String.eqb_refl.
  - destruct (String.eqb k' k) eqn:E; [discriminate|]. simpl.
    intros H. now rewrite IH.
Qed.

Lemma normalise_or_self (v : value) :
  (if negb (is_scalar v) then normalise v else v) = normalise v.
Proof. now destruct v. Qed.

(** X1.  A write that raises changes nothing, and what it raises is a
    [TypeError] or the [KeyError] of the key written. *)
Theorem setitem_failure_is_clean (st : t) (key : string) (v : value) (e : exn) :
  fst (__setitem__ key v st) = Raise e ->
  snd (__setitem__ key v st) = st
  /\ ((exists msg, e = TypeError msg) \/ e = KeyError key).
Proof.
  unfold __setitem__.
  destruct (accepted_type v); simpl.
  2:{ intros H. inversion H. split; eauto. }
  run. destruct (Dict.mem (defaults st) key) eqn:Hm; simpl.
  2:{ intros H. inversion H. split; eauto. }
  unfold Dict.mem in Hm. unfold Dict.item.
  destruct (Dict.get (defaults st) key) as [d|] eqn:Hd; [|discriminate].
  assert (Hacc : forall e0, accepts st key v = Raise e0 ->
                            (exists msg, e0 = TypeError msg) \/ e0 = KeyError key).
  { unfold accepts, Dict.item. intros e0.
    destruct (Dict.get (domain st) key) as [dom|]; simpl.
    - destruct (is_scalar v); [destruct (value_in v dom)|]; try discriminate;
        destruct v; simpl; intros H; inversion H; eauto.
    - destruct (is_scalar v); intros H; inversion H; auto. }
  destruct (accepts st key v) as [[|]|e0] eqn:Ha; simpl.
  - destruct (py_eq _ d); simpl; [|discriminate].
    unfold Dict.del. destruct (Dict.mem (override st) key); simpl; [discriminate|].
    intros H. inversion H. auto.
  - destruct (Dict.get (domain st) key); simpl; intros H; inversion H; split; eauto.
  - intros H. inversion H. subst. split; auto.
Qed.

Lemma setitem_failure_is_clean_witness :
  snd (__setitem__ "A" (VList [SInt 7]) Demo.fresh) = Demo.fresh
  /\ ((exists msg, TypeError "Invalid value for 'A' (allowed: 0, 1)" = TypeError msg)
      \/ TypeError "Invalid value for 'A' (allowed: 0, 1)" = KeyError "A").
Proof.
  exact (setitem_failure_is_clean Demo.fresh "A" (VList [SInt 7])
           (TypeError "Invalid value for 'A' (allowed: 0, 1)") eq_refl).
Defined.

(** The state a write of an accepted value that differs from the default
    leaves. *)
Lemma setitem_writes (st : t) (key : string) (v d : value) :
  Dict.get (defaults st) key = Some d ->
  accepts st key v = Ok true ->
  py_eq (normalise v) d = false ->
  __setitem__ key v st
  = (Ok tt, mk (defaults st) (domain st)
               (Dict.set (override st) key (normalise v))
               (Dict.set (base st) key (normalise v))).
Proof.
  intros Hd Ha He.
  assert (Hty : accepted_type v = true).
  { destruct v; auto. unfold accepts in Ha. simpl in Ha.
    destruct (Dict.item (domain st) key); discriminate. }
  unfold __setitem__. rewrite Hty. run. unfold Dict.mem, Dict.item.
  rewrite Hd, Ha. simpl. rewrite normalise_or_self, He. reflexivity.
Qed.

(** X2.  A write of an accepted value that differs from the default returns;
    afterwards [self[key]] is the value, a list or set having become a
    tuple, the state is custom, every other key reads as before, and the
    key keeps its place among the overrides or, when new, goes last. *)
Theorem setitem_then_getitem (st : t) (key : string) (v d : value) :
  Dict.get (defaults st) key = Some d ->
  accepts st key v = Ok true ->
  py_eq (normalise v) d = false ->
  fst (__setitem__ key v st) = Ok tt
  /\ __getitem__ (snd (__setitem__ key v st)) key = Ok (normalise v)
  /\ is_custom (snd (__setitem__ key v st)) = true
  /\ (forall k, k <> key ->
        __getitem__ (snd (__setitem__ key v st)) k = __getitem__ st k)
  /\ defaults (snd (__setitem__ key v st)) = defaults st
  /\ domain (snd (__setitem__ key v st)) = domain st
  /\ Dict.keys (override (snd (__setitem__ key v st)))
     = (if Dict.mem (override st) key then Dict.keys (override st)
        else (Dict.keys (override st) ++ [key])%list).
Proof.
  intros Hd Ha He.
  rewrite (setitem_writes st key v d Hd Ha He). simpl. repeat split.
  - unfold __getitem__, Dict.item. simpl. now rewrite Hd, get_set_same.
  - unfold is_custom. simpl.
    destruct (Dict.set (override st) key (normalise v)) eqn:E; auto.
    pose proof (get_set_same (override st) key (normalise v)) as G.
    rewrite E in G. discriminate.
  - intros k Hk. unfold __getitem__. simpl. now rewrite get_set_other.
  - apply keys_set.
Qed.

Lemma setitem_then_getitem_witness :
  fst (__setitem__ "C" (VSet [SInt 2; SInt 1]) Demo.a1_bx) = Ok tt
  /\ __getitem__ (snd (__setitem__ "C" (VSet [SInt 2; SInt 1]) Demo.a1_bx)) "C"
     = Ok (VTuple [SInt 2; SInt 1])
  /\ Dict.keys (override (snd (__setitem__ "C" (VSet [SInt 2; SInt 1]) Demo.a1_bx)))
     = ["A"; "B"; "C"].
Proof.
  destruct (setitem_then_getitem Demo.a1_bx "C" (VSet [SInt 2; SInt 1]) (VInt 0)
              eq_refl eq_refl eq_refl) as (H1 & H2 & _ & _ & _ & _ & H7).
  split; [exact H1|]. split; [exact H2|exact H7].
Defined.

(** *** The inherited dictionary *)

Lemma base_tracks_setitem (st : t) (k : string) (v : value) :
  base_tracks st -> base_tracks (snd (__setitem__ k v st)).
Proof.
  intros Hb. unfold __setitem__.
  destruct (accepted_type v); simpl; auto.
  run. destruct (Dict.mem (defaults st) k); simpl; auto.
  destruct (accepts st k v) as [[|]|e]; simpl; auto.
  - destruct (Dict.item (defaults st) k) as [d|e]; simpl; auto.
    destruct (py_eq _ d); simpl.
    + unfold Dict.del. destruct (Dict.mem (override st) k); simpl; auto.
      intros k' v' H. simpl in *.
      destruct (String.eqb k' k) eqn:E.
      * apply String.eqb_eq in E. subst. now rewrite get_remove_same in H.
      * apply String.eqb_neq in E. rewrite get_remove_other in H; auto.
    + intros k' v' H. simpl in *.
      destruct (String.eqb k' k) eqn:E.
      * apply String.eqb_eq in E. subst.
        rewrite get_set_same in *. auto.
      * apply String.eqb_neq in E.
        rewrite get_set_other in *; auto.
  - destruct (Dict.item (domain st) k); simpl; auto.
Qed.

Lemma base_tracks_delitem (st : t) (k : string) :
  base_tracks st -> base_tracks (snd (__delitem__ k st)).
Proof.
  intros Hb. unfold __delitem__, Dict.del. run.
  destruct (Dict.mem (override st) k); simpl; auto.
  assert (Hr : forall k' v', Dict.get (Dict.remove (override st) k) k' = Some v' ->
                             k' <> k /\ Dict.get (base st) k' = Some v').
  { intros k' v' H. destruct (String.eqb k' k) eqn:E.
    - apply String.eqb_eq in E. subst. now rewrite get_remove_same in H.
    - apply String.eqb_neq in E. rewrite get_remove_other in H; auto. }
  destruct (Dict.item (defaults st) k); simpl; intros k' v' H; simpl in *;
    destruct (Hr k' v' H) as [Hn Hg]; auto.
  now rewrite get_set_other.
Qed.

(** *** Reachable states *)

Lemma defaults_domain_setitem (st : t) (k : string) (v : value) :
  defaults (snd (__setitem__ k v st)) = defaults st
  /\ domain (snd (__setitem__ k v st)) = domain st.
Proof.
  unfold __setitem__. destruct (accepted_type v); simpl; auto. run.
  destruct (Dict.mem (defaults st) k); simpl; auto.
  destruct (accepts st k v) as [[|]|e]; simpl; auto.
  - destruct (Dict.item (defaults st) k) as [d|e]; simpl; auto.
    destruct (py_eq _ d); simpl; auto.
    destruct (Dict.del (override st) k); auto.
  - destruct (Dict.item (domain st) k); auto.
Qed.

Lemma defaults_domain_delitem (st : t) (k : string) :
  defaults (snd (__delitem__ k st)) = defaults st
  /\ domain (snd (__delitem__ k st)) = domain st.
Proof.
  unfold __delitem__. run. destruct (Dict.del (override st) k); simpl; auto.
  destruct (Dict.item (defaults st) k); auto.
Qed.

Lemma step_keeps (o : op) (st : t) :
  wf st -> base_tracks st ->
  wf (step o st) /\ base_tracks (step o st)
  /\ defaults (step o st) = defaults st /\ domain (step o st) = domain st.
Proof.
  intros Hw Hb. destruct o as [k v|k|]; simpl.
  - split; [now apply wf_setitem|].
    split; [now apply base_tracks_setitem|]. apply defaults_domain_setitem.
  - split; [now apply wf_delitem|].
    split; [now apply base_tracks_delitem|]. apply defaults_domain_delitem.
  - split; [apply wf_reset|]. split; [|split; reflexivity].
    intros k v H. discriminate.
Qed.

Lemma run_keeps (ops : list op) :
  forall st, wf st -> base_tracks st ->
    wf (run ops st) /\ base_tracks (run ops st)
    /\ defaults (run ops st) = defaults st /\ domain (run ops st) = domain st.
Proof.
  induction ops as [|o ops IH]; intros st Hw Hb; simpl; auto.
  destruct (step_keeps o st Hw Hb) as (H1 & H2 & H3 & H4).
  destruct (IH (step o st) H1 H2) as (I1 & I2 & I3 & I4).
  split; [exact I1|]. split; [exact I2|]. split; congruence.
Qed.

(** X3.  Whatever writes, deletions and resets follow the construction, and
    whether they return or raise: the defaults and the domains stay as
    constructed, no automaton has two overrides, and every override is an
    [int], [str] or [tuple] that passed the condition of line 47, differs
    from the default of its automaton, is what [self[k]] returns and is
    what the inherited dictionary holds for [k]. *)
Theorem reachable_state_invariant
  (i : Info.t) (dflt : option (dict value)) (st0 : t) (d0 : dict value)
  (ops : list op) :
  __init__ i dflt = (Ok st0, d0) ->
  defaults (run ops st0) = defaults st0
  /\ domain (run ops st0) = domain st0
  /\ NoDup (Dict.keys (override (run ops st0)))
  /\ forall k v,
       Dict.get (override (run ops st0)) k = Some v ->
       stored_shape v = true
       /\ accepts st0 k v = Ok true
       /\ (exists d, Dict.get (defaults st0) k = Some d /\ py_eq v d = false)
       /\ __getitem__ (run ops st0) k = Ok v
       /\ Dict.get (base (run ops st0)) k = Some v.
Proof.
  intros Hinit.
  assert (Hw0 : wf st0) by (eapply wf_new; eauto).
  assert (Hb0 : base_tracks st0).
  { unfold __init__ in Hinit.
    destruct (for_each _ _ _) as [[u|e] [dom d']]; inversion Hinit; subst.
    intros k v H. discriminate. }
  destruct (run_keeps ops st0 Hw0 Hb0) as ([Hn Hf] & Hb & Hd & Hm).
  split; [exact Hd|]. split; [exact Hm|]. split; [exact Hn|].
  intros k v H.
  pose proof (proj1 (forallb_forall _ _) Hf (k, v) (get_In _ _ _ H)) as He;
    unfold entry_ok in He; simpl in He;
    apply andb_true_iff in He as [He H3]; apply andb_true_iff in He as [H1 H2];
    rewrite (accepts_ext st0 (run ops st0) _ _ Hm) in H2; rewrite Hd in H3.
  split; [|split; [|split; [|split]]].
  - exact H1.
  - now destruct (accepts st0 k v) as [[|]|].
  - destruct (Dict.get (defaults st0) k) as [d|]; [|discriminate].
    exists d. split; auto. now apply negb_true_iff.
  - unfold __getitem__, Dict.item. rewrite Hd, H.
    now destruct (Dict.get (defaults st0) k).
  - now apply Hb.
Qed.

Lemma reachable_state_invariant_witness :
  NoDup (Dict.keys (override
           (run [Write "A" (VInt 1); Write "A" (VInt 5); Delete "B";
                 Write "C" (VList [SInt 2]); Write "A" (VInt 0)] Demo.fresh)))
  /\ __getitem__ (run [Write "A" (VInt 1); Write "A" (VInt 5); Delete "B";
                       Write "C" (VList [SInt 2]); Write "A" (VInt 0)] Demo.fresh) "C"
     = Ok (VTuple [SInt 2]).
Proof.
  destruct (reachable_state_invariant Demo.info None Demo.fresh
              (Info.initial_state Demo.info)
              [Write "A" (VInt 1); Write "A" (VInt 5); Delete "B";
               Write "C" (VList [SInt 2]); Write "A" (VInt 0)] eq_refl)
    as (_ & _ & Hn & Hall).
  split; [exact Hn|].
  exact (proj1 (proj2 (proj2 (proj2 (Hall "C" (VTuple [SInt 2]) eq_refl))))).
Defined.

(** *** The empty list *)

(** X5.  On a state without overrides, writing the empty list to an automaton
    that has a domain and whose default is not the empty tuple returns:
    the empty tuple becomes its value and the state is custom, yet
    [to_pint()] is the empty string, and the hook of [Model] passes
    [--initial-context] with that empty string to the process. *)
Theorem setitem_empty_list (st : t) (key : string) (d : value)
  (m : Model.t) (a : Model.popen_args) :
  override st = [] ->
  Dict.get (defaults st) key = Some d ->
  Dict.mem (domain st) key = true ->
  py_eq (VTuple []) d = false ->
  fst (__setitem__ key (VList []) st) = Ok tt
  /\ __getitem__ (snd (__setitem__ key (VList []) st)) key = Ok (VTuple [])
  /\ is_custom (snd (__setitem__ key (VList []) st)) = true
  /\ to_pint (snd (__setitem__ key (VList []) st)) = Ok EmptyString
  /\ Model.Model_populate_popen_args
       (Model.with_initial_state m (Some (snd (__setitem__ key (VList []) st)))) a
     = Ok ((fst a ++ ["--initial-context"; EmptyString])%list, snd a).
Proof.
  intros Ho Hd Hm He.
  assert (Ha : accepts st key (VList []) = Ok true).
  { unfold accepts, Dict.item. simpl. apply mem_get in Hm as [dom Hg].
    now rewrite Hg. }
  rewrite (setitem_writes st key (VList []) d Hd Ha He), Ho. simpl.
  repeat split.
  unfold __getitem__, Dict.item. simpl. rewrite Hd.
  now rewrite String.eqb_refl.
Qed.

Lemma setitem_empty_list_witness :
  is_custom (snd (__setitem__ "A" (VList []) Demo.fresh)) = true
  /\ to_pint (snd (__setitem__ "A" (VList []) Demo.fresh)) = Ok EmptyString.
Proof.
  destruct (setitem_empty_list Demo.fresh "A" (VInt 0) Demo.model ([], [])
              eq_refl eq_refl eq_refl eq_refl) as (_ & _ & H3 & H4 & _).
  split; [exact H3|exact H4].
Defined.

(** *** Dropping an override: delete, or write the default *)

(** X6.  A write of a new override followed by [del self[key]] gives back the
    overrides there were, so every key reads as before the write; the
    inherited dictionary then holds the default for the key. *)
Theorem setitem_then_delitem (st : t) (key : string) (v d : value) :
  Dict.get (defaults st) key = Some d ->
  Dict.get (override st) key = None ->
  accepts st key v = Ok true ->
  py_eq (normalise v) d = false ->
  fst (__delitem__ key (snd (__setitem__ key v st))) = Ok tt
  /\ override (snd (__delitem__ key (snd (__setitem__ key v st)))) = override st
  /\ (forall k, __getitem__ (snd (__delitem__ key (snd (__setitem__ key v st)))) k
                = __getitem__ st k)
  /\ Dict.get (base (snd (__delitem__ key (snd (__setitem__ key v st))))) key
     = Some d.
Proof.
  intros Hd Ho Ha He.
  assert (Hty : accepted_type v = true).
  { destruct v; auto. unfold accepts in Ha. simpl in Ha.
    destruct (Dict.item (domain st) key); discriminate. }
  assert (Hset : __setitem__ key v st
                 = (Ok tt, mk (defaults st) (domain st)
                              (override st ++ [(key, normalise v)])%list
                              (Dict.set (base st) key (normalise v)))).
  { unfold __setitem__. rewrite Hty. run. unfold Dict.mem, Dict.item.
    rewrite Hd, Ha. simpl. rewrite normalise_or_self, He.
    now rewrite set_new_key. }
  rewrite Hset. unfold __delitem__, Dict.del, Dict.mem, Dict.item. run.
  assert (Hg : Dict.get (override st ++ [(key, normalise v)])%list key
               = Some (normalise v)).
  { rewrite <- (set_new_key _ _ _ Ho). apply get_set_same. }
  rewrite Hg. simpl. rewrite Hd. simpl.
  rewrite (remove_appended _ _ _ Ho).
  repeat split; auto. apply get_set_same.
Qed.

Lemma setitem_then_delitem_witness :
  override (snd (__delitem__ "C" (snd (__setitem__ "C" (VInt 2) Demo.a1_bx))))
  = override Demo.a1_bx.
Proof.
  exact (proj1 (proj2 (setitem_then_delitem Demo.a1_bx "C" (VInt 2) (VInt 0)
                         eq_refl eq_refl eq_refl eq_refl))).
Defined.

(** X7.  The two ways to drop the override [v] of [key] both make [self[key]]
    the default [d], but differ on the inherited dictionary: after
    [del self[key]] it holds [d], after writing [d] it still holds [v]. *)
Theorem default_write_leaves_inherited_entry (st : t) (key : string) (v d : value) :
  Dict.get (defaults st) key = Some d ->
  stored_shape d = true ->
  accepts st key d = Ok true ->
  Dict.get (override st) key = Some v ->
  Dict.get (base st) key = Some v ->
  fst (__setitem__ key d st) = Ok tt
  /\ __getitem__ (snd (__setitem__ key d st)) key = Ok d
  /\ Dict.get (base (snd (__setitem__ key d st))) key = Some v
  /\ fst (__delitem__ key st) = Ok tt
  /\ __getitem__ (snd (__delitem__ key st)) key = Ok d
  /\ Dict.get (base (snd (__delitem__ key st))) key = Some d.
Proof.
  intros Hd Hs Ha Ho Hb.
  pose proof (setitem_default st key d Hd Hs Ha) as Hset. rewrite Ho in Hset.
  rewrite Hset. simpl.
  unfold __delitem__, Dict.del, Dict.mem, Dict.item. run.
  rewrite Ho. simpl. rewrite Hd. simpl.
  unfold __getitem__, Dict.item. simpl. rewrite Hd, get_remove_same.
  repeat split; auto. apply get_set_same.
Qed.

Lemma default_write_leaves_inherited_entry_witness :
  Dict.get (base (snd (__setitem__ "A" (VInt 0) Demo.a1_bx))) "A" = Some (VInt 1)
  /\ Dict.get (base (snd (__delitem__ "A" Demo.a1_bx))) "A" = Some (VInt 0).
Proof.
  destruct (default_write_leaves_inherited_entry Demo.a1_bx "A" (VInt 1) (VInt 0)
              eq_refl eq_refl eq_refl eq_refl eq_refl)
    as (_ & _ & H3 & _ & _ & H6).
  split; [exact H3|exact H6].
Defined.

End InitialStateMore.

(* ================================================================== *)
(** ** The constructor: domains and defaults *)
(* ================================================================== *)

Module ConstructionMore.
Import InitialState Invariant InitialStateFacts ConstructionFacts.

Lemma member_In (x : scalar) (l : list scalar) : member x l = true <-> In x l.
Proof.
  unfold member. rewrite existsb_exists. split.
  - intros [y [Hy E]]. apply scalar_eqb_eq in E. now subst.
  - intros H. exists x. split; auto. apply scalar_eqb_refl.
Qed.

Lemma py_set_In (x : scalar) (l : list scalar) : In x (py_set l) <-> In x l.
Proof.
  induction l as [|y r IH]; simpl; [tauto|].
  rewrite filter_In, IH. split.
  - intros [H|[H _]]; auto.
  - intros [H|H]; auto.
    destruct (scalar_eqb y x) eqn:E.
    + apply scalar_eqb_eq in E. auto.
    + right. split; auto.
Qed.

Lemma py_set_NoDup (l : list scalar) : NoDup (py_set l).
Proof.
  induction l as [|y r IH]; simpl; constructor.
  - rewrite filter_In. intros [_ H]. now rewrite scalar_eqb_refl in H.
  - now apply NoDup_filter.
Qed.

(** What a loop that returned has done, automaton by automaton. *)
Lemma init_loop_returned (i : Info.t) (l : list string) :
  forall dom d dom' d',
    for_each l (init_step i) (dom, d) = (Ok tt, (dom', d')) ->
    (forall k, In k l ->
       exists ls nls v,
         Dict.get (Info.local_states i) k = Some ls
         /\ Dict.get (Info.named_local_states i) k = Some nls
         /\ Dict.get d k = Some v
         /\ Dict.get dom' k = Some (py_set (ls ++ nls))
         /\ Dict.get d' k = Some (tupled v))
    /\ (forall k, ~ In k l ->
          Dict.get dom' k = Dict.get dom k /\ Dict.get d' k = Dict.get d k).
Proof.
  induction l as [|a r IH]; intros dom d dom' d' H.
  - inversion H. subst. split; [intros k []|auto].
  - simpl in H. unfold bind in H.
    destruct (init_step_cases i a dom d)
      as [(k0 & s & Hs & _)|(ls & nls & v & Hl & Hn & Hd)].
    { rewrite Hs in H. discriminate. }
    destruct (init_step_ok i a dom d ls nls v Hl Hn Hd) as (d1 & Hstep & Hd1).
    rewrite Hstep in H.
    destruct (IH _ _ _ _ H) as [Hin Hout].
    assert (Hd1a : Dict.get d1 a = Some (tupled v))
      by (rewrite Hd1; now rewrite String.eqb_refl).
    assert (Hd1o : forall k, k <> a -> Dict.get d1 k = Dict.get d k).
    { intros k Hk. rewrite Hd1. apply String.eqb_neq in Hk. now rewrite Hk. }
    split.
    + intros k [<-|Hk].
      * exists ls, nls, v. repeat split; auto.
        -- destruct (in_dec string_dec a r) as [Hi|Hi].
           ++ destruct (Hin a Hi) as (ls' & nls' & v' & A1 & A2 & _ & A4 & _).
              congruence.
           ++ destruct (Hout a Hi) as [-> _]. apply get_set_same.
        -- destruct (in_dec string_dec a r) as [Hi|Hi].
           ++ destruct (Hin a Hi) as (ls' & nls' & v' & _ & _ & A3 & _ & A5).
              rewrite A5. rewrite Hd1a in A3. inversion A3.
              now rewrite tupled_idem.
           ++ destruct (Hout a Hi) as [_ ->]. exact Hd1a.
      * destruct (Hin k Hk) as (ls' & nls' & v' & A1 & A2 & A3 & A4 & A5).
        destruct (string_dec k a) as [->|Hne].
        -- exists ls', nls', v. repeat split; auto.
           rewrite A5. rewrite Hd1a in A3. inversion A3.
           now rewrite tupled_idem.
        -- exists ls', nls', v'. repeat split; auto.
           now rewrite <- Hd1o.
    + intros k Hk. simpl in Hk.
      assert (k <> a) by (intros ->; apply Hk; now left).
      assert (~ In k r) by (intros Hi; apply Hk; now right).
      destruct (Hout k) as [-> ->]; auto.
      rewrite get_set_other by auto. split; auto.
Qed.

(** The parts of a new state that do not depend on the automata. *)
Lemma init_shape (i : Info.t) (dflt : option (dict value)) (st : t)
  (d : dict value) :
  __init__ i dflt = (Ok st, d) ->
  override st = [] /\ defaults st = d.
Proof.
  unfold __init__.
  destruct (for_each _ _ _) as [[[]|e] [dom' d']]; intros H; inversion H.
  now subst.
Qed.

(** X8.  A constructor that returned has found, for every automaton of the
    metadata, its two tables and its default.  The new state has no
    override; the domain of the automaton holds exactly its local states
    and its named local states, each once; [self[a]] is the default, a
    list default having become the tuple of the same elements; the
    defaults are the caller's dictionary as the constructor leaves it,
    and the inherited dictionary is a copy taken before the rewriting. *)
Theorem init_builds_domains_and_defaults
  (i : Info.t) (dflt : option (dict value)) (st : t) (d : dict value) :
  __init__ i dflt = (Ok st, d) ->
  override st = []
  /\ defaults st = d
  /\ base st = match dflt with None => Info.initial_state i | Some d0 => d0 end
  /\ forall a, In a (Info.automata i) ->
       exists ls nls dom v,
         Dict.get (Info.local_states i) a = Some ls
         /\ Dict.get (Info.named_local_states i) a = Some nls
         /\ Dict.get (domain st) a = Some dom
         /\ NoDup dom
         /\ (forall x, In x dom <-> In x ls \/ In x nls)
         /\ Dict.get (base st) a = Some v
         /\ __getitem__ st a = Ok (tupled v).
Proof.
  unfold __init__.
  destruct (for_each _ _ _) as [[[]|e] [dom' d']] eqn:E; intros H;
    inversion H; subst; clear H.
  simpl. repeat split.
  intros a Ha.
  destruct (init_loop_returned i (Info.automata i) _ _ _ _ E) as [Hin _].
  destruct (Hin a Ha) as (ls & nls & v & A1 & A2 & A3 & A4 & A5).
  exists ls, nls, (py_set (ls ++ nls)), v. repeat split; auto.
  - apply py_set_NoDup.
  - rewrite py_set_In. apply in_app_or.
  - rewrite py_set_In. apply in_or_app.
  - unfold __getitem__, Dict.item. simpl. now rewrite A5.
Qed.

Lemma init_builds_domains_and_defaults_witness :
  exists ls nls dom v,
    Dict.get (Info.local_states Demo.info) "B" = Some ls
    /\ Dict.get (Info.named_local_states Demo.info) "B" = Some nls
    /\ Dict.get (domain Demo.fresh) "B" = Some dom
    /\ NoDup dom
    /\ (forall x, In x dom <-> In x ls \/ In x nls)
    /\ Dict.get (base Demo.fresh) "B" = Some v
    /\ __getitem__ Demo.fresh "B" = Ok (tupled v).
Proof.
  exact (proj2 (proj2 (proj2 (init_builds_domains_and_defaults
                                Demo.info None Demo.fresh
                                (Info.initial_state Demo.info) eq_refl)))
           "B" (or_intror (or_introl eq_refl))).
Defined.

End ConstructionMore.

(* ================================================================== *)
(** ** Named states *)
(* ================================================================== *)

Module NamedStateFacts.
Import InitialState Invariant ConstructionFacts.

(** [register_state] on a model that has its metadata, by the outcome of
    the constructor. *)
Lemma register_state_by_init (m : Model.t) (i : Info.t) (name : string)
  (state : dict value) (r : result t) (d : dict value) :
  Model.info m = Some i ->
  __init__ i (Some state) = (r, d) ->
  Model.register_state name (m, state)
  = match r with
    | Ok st =>
        (Ok tt, (Model.with_named_states m
                   (Dict.set (Model.named_states m) name st), d))
    | Raise e => (Raise e, (m, d))
    end.
Proof.
  intros Hi Hinit.
  unfold Model.register_state, Model.attr, bind, get, put, lift.
  cbn -[__init__]. rewrite Hi. cbn -[__init__]. rewrite Hinit.
  now destruct r.
Qed.

(** The loop of the constructor returns exactly when the dictionary has
    every automaton and the metadata has both tables of each. *)
Lemma init_loop_returns_iff (i : Info.t) (state : dict value) :
  (exists dom d, for_each (Info.automata i) (init_step i) ([], state)
                 = (Ok tt, (dom, d)))
  <-> forallb (Dict.mem state) (Info.automata i) && tables_cover i = true.
Proof.
  split.
  - intros (dom & d & E). apply andb_true_iff. split.
    + apply forallb_forall. intros a Ha.
      destruct (ConstructionMore.init_loop_returned i _ _ _ _ _ E) as [Hin _].
      destruct (Hin a Ha) as (ls & nls & v & _ & _ & Hv & _).
      unfold Dict.mem. now rewrite Hv.
    + exact (init_loop_returns_covers i _ _ _ E).
  - intros H. apply andb_true_iff in H as [Hall Hcov].
    destruct (init_loop_ok i (Info.automata i) [] state) as (dom & d & E & _).
    { intros a Ha.
      pose proof (proj1 (forallb_forall _ _) Hall a Ha) as H1.
      pose proof (proj1 (forallb_forall _ _) Hcov a Ha) as H2.
      apply andb_true_iff in H2 as [H2 H3]. auto. }
    now exists dom, d.
Qed.

(** C10, as the code has it.  [register_state(name, state)] on a model
    whose metadata is [i].  When [state] has an entry for every
    automaton of [i] and [i] has the tables [local_states] and
    [named_local_states] of every automaton, the call returns; the
    returned model holds under [name] an initial state without
    overrides, for which [is_custom()] is false, whose defaults are the
    dictionary [state] itself as the constructor leaves it, and for
    which [self[a]] is the entry of [state] for each automaton, a list
    entry having become the tuple of the same elements.  Otherwise, so
    whenever [state] lacks an automaton, the call raises [KeyError] and
    the model is as it was: no named state is registered. *)
Theorem register_state_needs_every_automaton
  (m : Model.t) (i : Info.t) (name : string) (state : dict value) :
  Model.info m = Some i ->
  if forallb (Dict.mem state) (Info.automata i) && tables_cover i
  then
    fst (Model.register_state name (m, state)) = Ok tt
    /\ exists st,
         Dict.get (Model.named_states
                     (fst (snd (Model.register_state name (m, state))))) name
         = Some st
         /\ is_custom st = false
         /\ override st = []
         /\ defaults st = snd (snd (Model.register_state name (m, state)))
         /\ forall a, In a (Info.automata i) ->
              exists v,
                Dict.get state a = Some v
                /\ Dict.get (snd (snd (Model.register_state name (m, state)))) a
                   = Some (tupled v)
                /\ __getitem__ st a = Ok (tupled v)
  else
    exists k,
      fst (Model.register_state name (m, state)) = Raise (KeyError k)
      /\ fst (snd (Model.register_state name (m, state))) = m
      /\ Model.named_states (fst (snd (Model.register_state name (m, state))))
         = Model.named_states m.
Proof.
  intros Hi.
  destruct (forallb (Dict.mem state) (Info.automata i) && tables_cover i) eqn:C.
  - destruct (proj2 (init_loop_returns_iff i state) C) as (dom & d & E).
    pose proof (init_of_loop i state (Ok tt) dom d E) as Hinit.
    rewrite (register_state_by_init m i name state _ d Hi Hinit).
    cbn [fst snd Model.with_named_states Model.named_states].
    split; [reflexivity|].
    exists (mk d dom [] state). split; [apply get_set_same|].
    repeat split.
    intros a Ha.
    destruct (ConstructionMore.init_loop_returned i _ _ _ _ _ E) as [Hin _].
    destruct (Hin a Ha) as (ls & nls & v & _ & _ & Hv & _ & Hd).
    exists v. repeat split; auto.
    unfold __getitem__, Dict.item. simpl. now rewrite Hd.
  - destruct (for_each (Info.automata i) (init_step i) ([], state))
      as [[[]|e] [dom d]] eqn:E.
    + assert (forallb (Dict.mem state) (Info.automata i) && tables_cover i = true)
        by (apply init_loop_returns_iff; now exists dom, d).
      congruence.
    + destruct (init_loop_raises i _ _ _ _ E) as [k ->].
      pose proof (init_of_loop i state (Raise (KeyError k)) dom d E) as Hinit.
      rewrite (register_state_by_init m i name state _ d Hi Hinit).
      exists k. repeat split.
Qed.

Lemma register_state_needs_every_automaton_witness :
  fst (Model.register_state "wildtype" (Demo.model, Demo.wildtype)) = Ok tt
  /\ exists st,
       Dict.get (Model.named_states
                   (fst (snd (Model.register_state "wildtype"
                                (Demo.model, Demo.wildtype))))) "wildtype"
       = Some st
       /\ is_custom st = false
       /\ override st = []
       /\ defaults st
          = snd (snd (Model.register_state "wildtype" (Demo.model, Demo.wildtype)))
       /\ forall a, In a (Info.automata Demo.info) ->
            exists v,
              Dict.get Demo.wildtype a = Some v
              /\ Dict.get (snd (snd (Model.register_state "wildtype"
                                       (Demo.model, Demo.wildtype)))) a
                 = Some (tupled v)
              /\ __getitem__ st a = Ok (tupled v).
Proof.
  exact (register_state_needs_every_automaton
           Demo.model Demo.info "wildtype" Demo.wildtype eq_refl).
Defined.

(** C10 as stated fails.  A reload of [Demo.model] that receives the
    metadata [Demo.partial_info], which lacks the table of local states
    of [A], raises and leaves the model [Demo.partial_model]; on that
    model [register_state] with a state that has every automaton raises
    [KeyError("A")] and registers nothing. *)
Lemma register_state_incomplete_metadata_raises :
  Model_load Demo.world Demo.check_output (fun _ => Done Demo.partial_info)
             (Demo.model, ["model.an"])
  = (Raise (KeyError "A"), (Demo.partial_model, ["model.an"]))
  /\ forallb (Dict.mem [("A", VInt 1)]) (Info.automata Demo.partial_info) = true
  /\ Model.register_state "wildtype" (Demo.partial_model, [("A", VInt 1)])
     = (Raise (KeyError "A"), (Demo.partial_model, [("A", VInt 1)])).
Proof. repeat split. Qed.

End NamedStateFacts.

(* ================================================================== *)
(** ** File names: extension and stem *)
(* ================================================================== *)

Module FileNameFacts.
Import PyStr.

Lemma contains_app (c : ascii) (s u : string) :
  contains c (s ++ u) = contains c s || contains c u.
Proof.
  induction s as [|x s IH]; simpl; auto.
  now rewrite IH, orb_assoc.
Qed.

Lemma last_field_after (c : ascii) (s u : string) :
  contains c u = false -> last_field c (s ++ String c u) = u.
Proof.
  intros Hu. induction s as [|x s IH]; simpl.
  - now rewrite Hu, Ascii.eqb_refl.
  - rewrite contains_app. simpl. rewrite Ascii.eqb_refl.
    rewrite orb_true_r. exact IH.
Qed.

Lemma last_field_none (c : ascii) (s : string) :
  contains c s = false -> last_field c s = s.
Proof.
  destruct s as [|x s]; simpl; auto.
  intros H. apply orb_false_iff in H as [H1 H2]. now rewrite H2, H1.
Qed.

Lemma length_app_string (s u : string) :
  String.length (s ++ u) = (String.length s + String.length u)%nat.
Proof. induction s; simpl; auto. Qed.

Lemma substring_prefix (s u : string) :
  substring 0 (String.length s) (s ++ u) = s.
Proof.
  induction s as [|x s IH]; simpl.
  - now destruct u.
  - now rewrite IH.
Qed.

(** X9.  For a path whose last component is [stem.e], where [e] has no
    dot and neither has a slash, whatever directories come before:
    [file_ext] is [e] in lower case; and when lower-casing [e] keeps its
    length (it does for ASCII and every code point below 256; Python's
    [str.lower] lengthens some others), the name [load] derives by
    cutting [len(ext) + 1] characters off the base name is [stem]. *)
Theorem file_ext_of_stem_dot_ext (dir stem e : string) :
  contains "/"%char stem = false ->
  contains "/"%char e = false ->
  contains "."%char e = false ->
  String.length (lower e) = String.length e ->
  basename (dir ++ "/" ++ stem ++ "." ++ e) = stem ++ "." ++ e
  /\ file_ext (dir ++ "/" ++ stem ++ "." ++ e) = Some (lower e)
  /\ file_ext (stem ++ "." ++ e) = Some (lower e)
  /\ drop_last (String.length (lower e) + 1) (stem ++ "." ++ e) = stem.
Proof.
  intros Hs He Hd Hlen.
  assert (Hn : contains "/"%char (stem ++ "." ++ e) = false).
  { rewrite contains_app, Hs. simpl. exact He. }
  assert (Hb : basename (dir ++ "/" ++ stem ++ "." ++ e) = stem ++ "." ++ e).
  { unfold basename. change (dir ++ "/" ++ stem ++ "." ++ e)
      with (dir ++ String "/"%char (stem ++ "." ++ e)).
    now apply last_field_after. }
  assert (Hb' : basename (stem ++ "." ++ e) = stem ++ "." ++ e)
    by (unfold basename; now apply last_field_none).
  assert (Hdot : contains "."%char (stem ++ "." ++ e) = true).
  { rewrite contains_app. simpl. now rewrite orb_true_r. }
  assert (Hl : last_field "."%char (stem ++ "." ++ e) = e).
  { change (stem ++ "." ++ e) with (stem ++ String "."%char e).
    now apply last_field_after. }
  split; [exact Hb|].
  unfold file_ext. rewrite Hb, Hb', Hdot, Hl. repeat split.
  unfold drop_last. rewrite Hlen, length_app_string. simpl.
  replace (String.length stem + S (String.length e) - (String.length e + 1))%nat
    with (String.length stem) by lia.
  apply substring_prefix.
Qed.

Lemma file_ext_of_stem_dot_ext_witness :
  file_ext ("/data/v1.2" ++ "/" ++ "My.Model" ++ "." ++ "SBML") = Some "sbml"
  /\ drop_last (String.length (lower "SBML") + 1) ("My.Model" ++ "." ++ "SBML")
     = "My.Model".
Proof.
  destruct (file_ext_of_stem_dot_ext "/data/v1.2" "My.Model" "SBML"
              eq_refl eq_refl eq_refl eq_refl) as (_ & H2 & _ & H4).
  split; [exact H2|exact H4].
Defined.

End FileNameFacts.

(* ================================================================== *)
(** ** Model.load, the hook, named states and load: further facts *)
(* ================================================================== *)

(** What the hook of [Model] and [FileModel] adds to the arguments. *)
Definition file_part (m : Model.t) : list string :=
  match Model.cls m, Model.filename m with
  | FileModel_class, Some f => ["-i"; f]
  | _, _ => []
  end.

Definition context_part (m : Model.t) : list string :=
  match Model.initial_state m with
  | Some (Some st) =>
      if InitialState.is_custom st then
        match InitialState.to_pint st with
        | Ok s => ["--initial-context"; s]
        | Raise _ => []
        end
      else []
  | _ => []
  end.

(** X10.  When the hook returns, the instance is no [InMemoryModel], the
    keyword arguments are as given, and the arguments are the given
    ones followed by [-i] and the file name for a [FileModel], then by
    [--initial-context] and the query string when the initial state is
    custom, and by nothing else. *)
Theorem populate_popen_args_appends (m : Model.t) (a a' : Model.popen_args) :
  Model.populate_popen_args m a = Ok a' ->
  Model.cls m <> InMemoryModel_class
  /\ snd a' = snd a
  /\ fst a' = (fst a ++ file_part m ++ context_part m)%list.
Proof.
  unfold Model.populate_popen_args, file_part, context_part.
  destruct m as [c ns i s f d]. simpl.
  assert (HM : forall b b',
             Model.Model_populate_popen_args (Model.mk c ns i s f d) b = Ok b' ->
             snd b' = snd b
             /\ fst b' = (fst b ++ match s with
                                   | Some (Some st) =>
                                       if InitialState.is_custom st then
                                         match InitialState.to_pint st with
                                         | Ok x => ["--initial-context"; x]
                                         | Raise _ => []
                                         end
                                       else []
                                   | _ => []
                                   end)%list).
  { intros b b'. unfold Model.Model_populate_popen_args, Model.attr. simpl.
    destruct s as [[st|]|]; try discriminate.
    - destruct (InitialState.is_custom st).
      + destruct (InitialState.to_pint st); intros H; inversion H; auto.
      + intros H; inversion H. now rewrite app_nil_r.
    - intros H; inversion H. now rewrite app_nil_r. }
  destruct c.
  - intros H. apply HM in H as [H1 H2]. repeat split; auto. discriminate.
  - unfold Model.FileModel_populate_popen_args, Model.attr. simpl.
    destruct f as [f|]; [|discriminate].
    unfold Model.super_populate_popen_args. simpl.
    intros H. apply HM in H as [H1 H2]. simpl in *.
    repeat split; auto; [discriminate|].
    rewrite H2, <- app_assoc. reflexivity.
  - unfold Model.InMemoryModel_populate_popen_args, Model.attr. simpl.
    destruct d; discriminate.
Qed.

Lemma populate_popen_args_appends_witness :
  fst (["pint-export"; "-l"; "nbjson"; "-i"; "m.an"; "--initial-context";
        PyStr.dq ++ "A" ++ PyStr.dq ++ "=1," ++ PyStr.dq ++ "B" ++ PyStr.dq
          ++ "=" ++ PyStr.dq ++ "x" ++ PyStr.dq], @nil (string * string))
  = (["pint-export"; "-l"; "nbjson"]
       ++ file_part (Model.mk FileModel_class [] (Some Demo.info)
                              (Some (Some Demo.a1_bx)) (Some "m.an") None)
       ++ context_part (Model.mk FileModel_class [] (Some Demo.info)
                                 (Some (Some Demo.a1_bx)) (Some "m.an") None))%list.
Proof.
  exact (proj2 (proj2 (populate_popen_args_appends
                         (Model.mk FileModel_class [] (Some Demo.info)
                                   (Some (Some Demo.a1_bx)) (Some "m.an") None)
                         (["pint-export"; "-l"; "nbjson"], [])
                         _ eq_refl))).
Defined.

(** X11.  [register_state] touches nothing of the model but the entry of
    [named_states] under [name], whether it returns or raises. *)
Theorem register_state_frame (name : string) (m : Model.t) (state : dict value) :
  let m' := fst (snd (Model.register_state name (m, state))) in
  Model.cls m' = Model.cls m
  /\ Model.info m' = Model.info m
  /\ Model.initial_state m' = Model.initial_state m
  /\ Model.filename m' = Model.filename m
  /\ Model.data m' = Model.data m
  /\ forall n, n <> name ->
       Dict.get (Model.named_states m') n = Dict.get (Model.named_states m) n.
Proof.
  cbv zeta. unfold Model.register_state, Model.attr, bind, get, put, lift.
  cbn -[InitialState.__init__].
  destruct (Model.info m) as [i|] eqn:Hi; cbn -[InitialState.__init__].
  2:{ repeat split; auto. }
  destruct (InitialState.__init__ i (Some state)) as [[st|e] d];
    cbn -[InitialState.__init__]; repeat split; auto.
  intros n Hn. now apply get_set_other.
Qed.

Section LoaderMore.

Variable W : Type.
Variable check_output : list string -> dict string -> W -> outcome string * W.
Variable json_loads : string -> outcome Info.t.
Variable check_call : list string -> W -> outcome unit * W.
Variable path_exists : string -> W -> bool.
Variable urlparse : string -> outcome (string * string).
Variable urlretrieve : string -> string -> W -> outcome string * W.
Variable new_output_file : string -> W -> outcome string * W.
Variable ui_info : string -> W -> W.
Variable display_FileLink : string -> W -> W.

(** The instance [Model.load] leaves, by the outcome of the call. *)
Lemma Model_load_shape (m : Model.t) (w : W) :
  Model.cls (fst (snd (Model_load W check_output json_loads (m, w)))) = Model.cls m
  /\ Model.filename (fst (snd (Model_load W check_output json_loads (m, w))))
     = Model.filename m
  /\ Model.data (fst (snd (Model_load W check_output json_loads (m, w))))
     = Model.data m
  /\ Model.named_states (fst (snd (Model_load W check_output json_loads (m, w))))
     = Model.named_states m
  /\ match fst (Model_load W check_output json_loads (m, w)) with
     | Ok _ =>
         exists i st,
           Model.info (fst (snd (Model_load W check_output json_loads (m, w))))
           = Some i
           /\ Model.initial_state
                (fst (snd (Model_load W check_output json_loads (m, w))))
              = Some (Some st)
           /\ InitialState.override st = []
           /\ InitialState.is_custom st = false
           /\ InitialState.defaults st = Info.initial_state i
           /\ Invariant.tables_cover i = true
     | Raise _ =>
         Model.initial_state
           (fst (snd (Model_load W check_output json_loads (m, w))))
         = Some None
     end.
Proof.
  unfold Model_load, bind, get, put, lift.
  cbn -[InitialState.__init__ Model.populate_popen_args].
  destruct (Model.populate_popen_args _ _) as [a|e];
    cbn -[InitialState.__init__]; [|repeat split].
  destruct (check_output (fst a) (snd a) w) as [[out|x] w1];
    cbn -[InitialState.__init__]; [|repeat split].
  destruct (json_loads out) as [i|x]; cbn -[InitialState.__init__]; [|repeat split].
  destruct (InitialState.__init__ i None) as [[st|e] d] eqn:E;
    cbn -[InitialState.__init__]; [|repeat split].
  split; [reflexivity|]. split; [reflexivity|]. split; [reflexivity|].
  split; [reflexivity|].
  destruct (ConstructionMore.init_shape i None st d E) as (Ho & Hd).
  exists (Model.set_initial_state i d), st. repeat split; auto.
  - unfold InitialState.is_custom. now rewrite Ho.
  - pose proof (ConstructionFacts.init_returns_covers i None st d E) as Hc.
    exact Hc.
Qed.

(** X12.  [Model.load] on any instance: the class, the file name, the data and
    the named states are untouched; after a call that returned, the
    instance holds the metadata, with the tables of every automaton, and
    a new initial state without overrides whose defaults are the
    [initial_state] of that metadata; after a call that raised,
    [initial_state] is [None]. *)
Theorem Model_load_outcome
  (m m' : Model.t) (w w' : W) (r : result unit) :
  Model_load W check_output json_loads (m, w) = (r, (m', w')) ->
  Model.cls m' = Model.cls m
  /\ Model.filename m' = Model.filename m
  /\ Model.data m' = Model.data m
  /\ Model.named_states m' = Model.named_states m
  /\ match r with
     | Ok _ =>
         exists i st,
           Model.info m' = Some i
           /\ Model.initial_state m' = Some (Some st)
           /\ InitialState.override st = []
           /\ InitialState.is_custom st = false
           /\ InitialState.defaults st = Info.initial_state i
           /\ Invariant.tables_cover i = true
     | Raise _ => Model.initial_state m' = Some None
     end.
Proof.
  intros H. pose proof (Model_load_shape m w) as S.
  rewrite H in S. exact S.
Qed.

(** X13.  Reloading a [FileModel]: the process is called with [-i] and the
    file name only, also when the instance held a custom initial state;
    when the process fails, its exception comes out of [load] and the
    instance is left with [initial_state] set to [None]. *)
Theorem FileModel_load_process_failure
  (m : Model.t) (f x : string) (w w1 : W) :
  Model.cls m = FileModel_class ->
  Model.filename m = Some f ->
  check_output ["pint-export"; "-l"; "nbjson"; "-i"; f] [] w = (Failed x, w1) ->
  Model_load W check_output json_loads (m, w)
  = (Raise (External x), (Model.with_initial_state m None, w1)).
Proof.
  intros Hc Hf Hco. destruct m as [c ns i s fl d]. simpl in Hc, Hf. subst.
  unfold Model_load, bind, get, put, lift.
  cbn -[InitialState.__init__]. now rewrite Hco.
Qed.

Lemma FileModel_ok (f : string) (w w' : W) (m : Model.t) :
  FileModel W check_output json_loads f w = (Ok m, w') ->
  Model.cls m = FileModel_class
  /\ Model.named_states m = []
  /\ Model.filename m = Some f
  /\ exists st, Model.initial_state m = Some (Some st)
                /\ InitialState.override st = []
                /\ InitialState.is_custom st = false.
Proof.
  unfold FileModel, construct. cbv zeta.
  cbn [Model.__init__ Model.cls Model.named_states Model.info
       Model.initial_state Model.data].
  match goal with
  | |- context [Model_load _ _ _ (?m0, w)] =>
      pose proof (Model_load_shape m0 w) as (H1 & H2 & _ & H4 & H5);
      destruct (Model_load W check_output json_loads (m0, w))
        as [[u|e] [m1 w1]] eqn:E
  end; intros H; inversion H; subst; simpl in *.
  destruct H5 as (i & st & _ & Hs & Ho & Hc & _).
  repeat split; auto. now exists st.
Qed.

Lemma import_ok (fmt inp an : string) (simplify : bool) (w w' : W) (m : Model.t) :
  import_using_logicalmodel W check_output json_loads check_call ui_info
    display_FileLink fmt inp an simplify w = (Ok m, w') ->
  Model.cls m = FileModel_class
  /\ Model.named_states m = []
  /\ Model.filename m = Some an
  /\ exists st, Model.initial_state m = Some (Some st)
                /\ InitialState.override st = []
                /\ InitialState.is_custom st = false.
Proof.
  unfold import_using_logicalmodel, call, tell, bind, ret, lift.
  destruct (check_call _ w) as [[[]|x] w1]; simpl; [|discriminate].
  assert (Hrest : forall w2,
             (let (r, s') := FileModel W check_output json_loads an
                               (display_FileLink an w2) in
              match r with
              | Ok a => (register_states [] a, s')
              | Raise e0 => (Raise e0, s')
              end) = (Ok m, w') ->
             Model.cls m = FileModel_class
             /\ Model.named_states m = []
             /\ Model.filename m = Some an
             /\ exists st, Model.initial_state m = Some (Some st)
                           /\ InitialState.override st = []
                           /\ InitialState.is_custom st = false).
  { intros w2. destruct (FileModel _ _ _ an _) as [[m0|e0] w3] eqn:E; simpl;
      intros H; inversion H; subst. eapply FileModel_ok. exact E. }
  destruct simplify.
  - destruct (check_call _ (ui_info _ w1)) as [[[]|x] w2]; simpl; [|discriminate].
    apply Hrest.
  - apply Hrest.
Qed.

(** X14.  Whatever the format and the source, a model returned by [load] is a
    [FileModel] with a file name, no named state, and an initial state
    without overrides. *)
Theorem load_returns_plain_FileModel
  (filename : string) (format : option string) (simplify : bool) (w w' : W)
  (m : Model.t) :
  load W check_output json_loads check_call path_exists urlparse urlretrieve
       new_output_file ui_info display_FileLink filename format simplify w
  = (Ok m, w') ->
  Model.cls m = FileModel_class
  /\ Model.named_states m = []
  /\ (exists f, Model.filename m = Some f)
  /\ exists st, Model.initial_state m = Some (Some st)
                /\ InitialState.override st = []
                /\ InitialState.is_custom st = false.
Proof.
  unfold load, bind, ret, lift, raise.
  destruct (file_ext filename) as [ext|]; [|discriminate]. cbv beta iota.
  destruct (load_format (Some ext) format) as [f|e0]; [|discriminate].
  destruct (load_fetch _ _ _ _ _ _ _ _ w) as [[fn|e1] w1]; [|discriminate].
  unfold load_dispatch, bind, tell, call, raise.
  destruct (String.eqb f "an").
  - intros H. apply FileModel_ok in H as (H1 & H2 & H3 & H4).
    repeat split; eauto.
  - destruct (str_in f _); [|discriminate].
    destruct (new_output_file _ _) as [[anfile|x] w2]; simpl; [|discriminate].
    intros H. apply import_ok in H as (H1 & H2 & H3 & H4).
    repeat split; eauto.
Qed.

Lemma dispatch_raises (f fn name : string) (simplify : bool) (w : W) (e : exn) :
  fst (load_dispatch W check_output json_loads check_call new_output_file
         ui_info display_FileLink f fn name simplify w) = Raise e ->
  benign e
  \/ (supported f = false
      /\ e = ValueError ("Format '" ++ f ++ "' is not supported.")).
Proof.
  unfold load_dispatch, supported, bind, tell, call, raise.
  destruct (String.eqb f "an"); cbn [orb].
  - destruct (FileModel _ _ _ fn _) as [r w1] eqn:E. simpl. intros ->.
    left. eapply FileModel_raises. exact E.
  - destruct (str_in f ["boolfunctions"; "boolsim"; "booleannet"; "sbml"]).
    + destruct (new_output_file _ _) as [[anfile|x] w1]; simpl.
      * destruct (import_using_logicalmodel _ _ _ _ _ _ f fn anfile simplify w1)
          as [r w2] eqn:E. simpl. intros ->.
        left. eapply import_raises. exact E.
      * intros H. inversion H. left. right. left. eauto.
    + simpl. intros H. inversion H. right. auto.
Qed.

Lemma ext2format_supported (ext f : string) :
  Dict.get ext2format ext = Some f -> supported f = true.
Proof.
  unfold ext2format. cbn -[String.eqb supported].
  repeat (match goal with
          | |- context [String.eqb ?a ext] => destruct (String.eqb a ext)
          end; [intros H; injection H as <-; reflexivity|]).
  discriminate.
Qed.

(** X15.  The exceptions of [load]: the [TypeError] of [len(None)] for a
    name without extension, one of the two that refuse a format, the
    failed assertion on the local file, what a collaborator raised
    (whatever its Python class), or the [KeyError] of incomplete
    metadata.  With no declared format, [load] never raises its own
    [ValueError], the one of its last branch: every format of the
    extension table is one the dispatch knows. *)
Theorem load_exceptions
  (filename : string) (format : option string) (simplify : bool) (w : W)
  (e : exn) :
  fst (load W check_output json_loads check_call path_exists urlparse
            urlretrieve new_output_file ui_info display_FileLink
            filename format simplify w) = Raise e ->
  ((file_ext filename = None
    /\ e = TypeError "object of type 'NoneType' has no len()")
   \/ is_unsupported_format e
   \/ benign e)
  /\ (format = None ->
      forall f, e <> ValueError ("Format '" ++ f ++ "' is not supported.")).
Proof.
  unfold load, bind, ret, lift, raise.
  destruct (file_ext filename) as [ext|] eqn:Hext.
  2:{ simpl. intros H. inversion H. split; [now left|]. discriminate. }
  cbv beta iota.
  destruct (load_format (Some ext) format) as [f|e0] eqn:Hf.
  2:{ simpl. intros H. inversion H. subst. unfold load_format in Hf.
      destruct format; [discriminate|].
      destruct (Dict.get ext2format ext); inversion Hf.
      split; [|discriminate]. right. left. left. now exists ext. }
  destruct (load_fetch _ _ _ _ _ _ _ _ w) as [[fn|e1] w1] eqn:Hfetch.
  2:{ simpl. intros H. inversion H. subst.
      pose proof (fetch_raises _ _ _ _ _ _ _ _ _ _ _ Hfetch) as Hb.
      split; [now right; right|].
      intros _ msg ->. destruct Hb as [H0|[[y H0]|[y H0]]]; discriminate. }
  intros H. apply dispatch_raises in H as [Hb|[Hs ->]].
  - split; [now right; right|].
    intros _ msg ->. destruct Hb as [H0|[[y H0]|[y H0]]]; discriminate.
  - split; [right; left; right; now exists f|].
    intros -> msg _. unfold load_format in Hf.
    destruct (Dict.get ext2format ext) as [f'|] eqn:Hg; inversion Hf. subst.
    apply ext2format_supported in Hg. congruence.
Qed.

(** X16.  A local file that does not exist: [load] ends with the failed
    assertion before anything is written to the notebook or any process
    is started, and the world is as it was. *)
Theorem load_missing_local_file
  (filename : string) (format : option string) (simplify : bool) (w : W)
  (ext f url : string) :
  file_ext filename = Some ext ->
  load_format (Some ext) format = Ok f ->
  urlparse filename = Done (EmptyString, url) ->
  path_exists filename w = false ->
  load W check_output json_loads check_call path_exists urlparse urlretrieve
       new_output_file ui_info display_FileLink filename format simplify w
  = (Raise (AssertionError None), w).
Proof.
  intros He Hf Hu Hp.
  unfold load, bind, ret, lift, raise. rewrite He. cbv beta iota.
  rewrite Hf. unfold load_fetch, bind, lift, get, raise, ret.
  rewrite Hu. simpl. now rewrite Hp.
Qed.

(** X17.  With the format [an], declared or looked up, [load] runs neither
    the converter nor the simplification and shows no link: its outcome
    is the same whatever [check_call] and [display] do and whatever
    [simplify] is. *)
Theorem load_native_runs_no_converter
  (check_call' : list string -> W -> outcome unit * W)
  (display' : string -> W -> W)
  (filename : string) (format : option string) (simplify simplify' : bool)
  (w : W) :
  load_format (file_ext filename) format = Ok "an" ->
  load W check_output json_loads check_call path_exists urlparse urlretrieve
       new_output_file ui_info display_FileLink filename format simplify w
  = load W check_output json_loads check_call' path_exists urlparse urlretrieve
         new_output_file ui_info display' filename format simplify' w.
Proof.
  intros Hf. unfold load, bind, ret, lift, raise.
  destruct (file_ext filename) as [ext|]; [|reflexivity]. cbv beta iota.
  rewrite Hf.
  destruct (load_fetch _ _ _ _ _ _ _ _ w) as [[fn|e1] w1]; reflexivity.
Qed.

End LoaderMore.

(** The theorems above on the world of [Demo]. *)

Lemma FileModel_load_process_failure_witness :
  Model_load unit (fun _ _ w => (Failed "pint-export: exit status 1", w))
             Demo.json_loads
             (Model.mk FileModel_class [] (Some Demo.info)
                       (Some (Some Demo.a1_bx)) (Some "model.an") None, tt)
  = (Raise (External "pint-export: exit status 1"),
     (Model.mk FileModel_class [] (Some Demo.info) (Some None)
               (Some "model.an") None, tt)).
Proof.
  exact (FileModel_load_process_failure unit
           (fun _ _ w => (Failed "pint-export: exit status 1", w))
           Demo.json_loads
           (Model.mk FileModel_class [] (Some Demo.info)
                     (Some (Some Demo.a1_bx)) (Some "model.an") None)
           "model.an" "pint-export: exit status 1" tt tt
           eq_refl eq_refl eq_refl).
Defined.

Lemma load_returns_plain_FileModel_witness :
  exists m w',
    Demo.load "models/net.SBML" None true ["models/net.SBML"] = (Ok m, w')
    /\ Model.cls m = FileModel_class
    /\ Model.named_states m = []
    /\ Model.filename m = Some "/tmp/pint/net.an".
Proof.
  eexists. eexists. split; [reflexivity|].
  match goal with
  | |- Model.cls ?m = _ /\ _ =>
      destruct (load_returns_plain_FileModel
                  Demo.world Demo.check_output Demo.json_loads Demo.check_call
                  Demo.path_exists Demo.urlparse Demo.urlretrieve
                  Demo.new_output_file Demo.ui_info Demo.display_FileLink
                  "models/net.SBML" None true ["models/net.SBML"]
                  ["/tmp/pint/net.an"; "/tmp/pint/net.an"; "models/net.SBML"]
                  m eq_refl) as (H1 & H2 & _)
  end.
  split; [exact H1|]. split; [exact H2|reflexivity].
Defined.

Lemma load_exceptions_witness :
  ((file_ext "model.xyz" = None
    /\ AssertionError (Some "Unknown extension 'xyz'")
       = TypeError "object of type 'NoneType' has no len()")
   \/ is_unsupported_format (AssertionError (Some "Unknown extension 'xyz'"))
   \/ benign (AssertionError (Some "Unknown extension 'xyz'")))
  /\ (@None string = None ->
      forall f, AssertionError (Some "Unknown extension 'xyz'")
                <> ValueError ("Format '" ++ f ++ "' is not supported.")).
Proof.
  exact (load_exceptions
           Demo.world Demo.check_output Demo.json_loads Demo.check_call
           Demo.path_exists Demo.urlparse Demo.urlretrieve
           Demo.new_output_file Demo.ui_info Demo.display_FileLink
           "model.xyz" None true []
           (AssertionError (Some "Unknown extension 'xyz'")) eq_refl).
Defined.

Lemma load_missing_local_file_witness :
  Demo.load "model.sbml" None true ["other.sbml"]
  = (Raise (AssertionError None), ["other.sbml"]).
Proof.
  exact (load_missing_local_file
           Demo.world Demo.check_output Demo.json_loads Demo.check_call
           Demo.path_exists Demo.urlparse Demo.urlretrieve
           Demo.new_output_file Demo.ui_info Demo.display_FileLink
           "model.sbml" None true ["other.sbml"] "sbml" "sbml" "model.sbml"
           eq_refl eq_refl eq_refl eq_refl).
Defined.

Lemma load_native_runs_no_converter_witness :
  Demo.load "model.an" None true ["model.an"]
  = load Demo.world Demo.check_output Demo.json_loads
         (fun _ w => (Failed "logicalmodel: not installed", w))
         Demo.path_exists Demo.urlparse Demo.urlretrieve Demo.new_output_file
         Demo.ui_info (fun _ w => w) "model.an" None false ["model.an"].
Proof.
  exact (load_native_runs_no_converter
           Demo.world Demo.check_output Demo.json_loads Demo.check_call
           Demo.path_exists Demo.urlparse Demo.urlretrieve
           Demo.new_output_file Demo.ui_info Demo.display_FileLink
           (fun _ w => (Failed "logicalmodel: not installed", w))
           (fun _ w => w)
           "model.an" None true false ["model.an"] eq_refl).
Defined.

Lemma Model_load_outcome_witness :
  exists st,
    Model.initial_state
      (fst (snd (Model_load Demo.world Demo.check_output Demo.json_loads
                   (Model.mk FileModel_class [] (Some Demo.info)
                             (Some (Some Demo.a1_bx)) (Some "model.an") None,
                    ["model.an"]))))
    = Some (Some st)
    /\ InitialState.is_custom st = false.
Proof.
  destruct (Model_load_outcome Demo.world Demo.check_output Demo.json_loads
              (Model.mk FileModel_class [] (Some Demo.info)
                        (Some (Some Demo.a1_bx)) (Some "model.an") None)
              (fst (snd (Model_load Demo.world Demo.check_output Demo.json_loads
                   (Model.mk FileModel_class [] (Some Demo.info)
                             (Some (Some Demo.a1_bx)) (Some "model.an") None,
                    ["model.an"]))))
              ["model.an"] ["model.an"] (Ok tt) eq_refl)
    as (_ & _ & _ & _ & i & st & _ & Hs & _ & Hc & _).
  exists st. split; [exact Hs|exact Hc].
Defined.
